(** * Social-App backend (index.js): accounts, session tokens and posts

    A shallow embedding of the Express handlers of [index.js] and the
    properties of its account registry, session tokens and post registry.

    - JavaScript values are the values [JSON.parse] produces, plus
      [undefined] for a property that is absent.
    - The two JSON files are the state; every handler is a function from
      the request and the state to the new state and what was sent.
    - [bcrypt] and [jsonwebtoken] are the two libraries the file requires;
      they are interfaces here, and the clock and the salt a call draws are
      explicit inputs. *)

From Stdlib Require Import ZArith List String Ascii Bool Lia DecimalString.
From stdpp Require Import gmap strings list.

Local Open Scope string_scope.
Local Open Scope Z_scope.
Local Open Scope list_scope.

(** ** Values *)

(** What a parsed JSON document holds. Numbers are the integers: the only
    numbers the program makes are post ids, [posts.length + 1]. *)
#[local] Set Warnings "-register-all".
Inductive value : Type :=
| VUndef
| VNull
| VBool (b : bool)
| VNum (n : Z)
| VStr (s : string)
| VArr (items : list value)
| VObj (props : list (string * value)).

#[local] Set Warnings "register-all".

(** [a === b]. Both operands always come from two separately parsed
    documents (the request, the token or a file), so two arrays or two
    objects are never the same reference. *)
Definition strict_eq (a b : value) : bool :=
  match a, b with
  | VUndef, VUndef => true
  | VNull, VNull => true
  | VBool x, VBool y => Bool.eqb x y
  | VNum x, VNum y => Z.eqb x y
  | VStr x, VStr y => String.eqb x y
  | _, _ => false
  end.

(** [a !== b] *)
Definition strict_neq (a b : value) : bool := negb (strict_eq a b).

(** Being a given number, or a given string, is decidable. *)
#[local] Instance value_is_num_dec (v : value) (n : Z) : Decision (v = VNum n).
Proof.
  destruct v as [| | |m| | |]; try (right; discriminate).
  destruct (decide (m = n)) as [->|Hne]; [left; reflexivity|].
  right; intros [= Heq]; exact (Hne Heq).
Defined.

#[local] Instance value_is_str_dec (v : value) (s : string) : Decision (v = VStr s).
Proof.
  destruct v as [| | | |t| |]; try (right; discriminate).
  destruct (decide (t = s)) as [->|Hne]; [left; reflexivity|].
  right; intros [= Heq]; exact (Hne Heq).
Defined.

(** Reading property [name] of a parsed object: [undefined] when absent. *)
Definition prop (name : string) (o : gmap string value) : value :=
  default VUndef (o !! name).

(** [s.split(sep)] for a one-character separator. *)
Fixpoint split (sep : ascii) (s : string) : list string :=
  match s with
  | EmptyString => [EmptyString]
  | String c rest =>
      if Ascii.eqb c sep then EmptyString :: split sep rest
      else match split sep rest with
           | piece :: pieces => String c piece :: pieces
           | [] => [String c EmptyString]
           end
  end.

(** ** Records *)

Module User.
Record t : Type := { username : value; password : string }.
End User.

Module Post.
Record t : Type := { id : Z; username : value; content : value }.
End Post.

(** ** The two database files *)

(** [None] is a file that does not exist; otherwise the array it holds. *)
Record fs : Type := {
  users_json : option (list User.t);
  posts_json : option (list Post.t)
}.

Definition readDatabase {A : Type} (file : option (list A)) : list A :=
  match file with
  | None => []
  | Some data => data
  end.

Definition writeDatabase {A : Type} (data : list A) : option (list A) :=
  Some data.

Definition write_users (st : fs) (users : list User.t) : fs :=
  {| users_json := writeDatabase users; posts_json := posts_json st |}.

Definition write_posts (st : fs) (posts : list Post.t) : fs :=
  {| users_json := users_json st; posts_json := writeDatabase posts |}.

(** ** Requests and responses *)

Record request : Type := {
  headers_authorization : option string;
  body : gmap string value;
  req_username : value
}.

Inductive payload : Type :=
| Message (message : string)
| Token (token : string)
| Text (text : string)
| Users (users : list User.t)
| Posts (posts : list Post.t)
| OnePost (p : Post.t).

Record response : Type := { status : nat; sent : payload }.

(** An [async] handler either responds or its promise rejects with
    nothing sent. *)
Inductive outcome : Type :=
| Responded (r : response)
| Rejected.

Definition json (code : nat) (p : payload) : outcome :=
  Responded {| status := code; sent := p |}.

Definition send (text : string) : outcome :=
  Responded {| status := 200; sent := Text text |}.

Definition sendStatus (code : nat) : response :=
  {| status := code;
     sent := Text (if Nat.eqb code 401 then "Unauthorized"
                   else if Nat.eqb code 403 then "Forbidden"
                   else "") |}.

(** ** Posts *)

Definition handleCreatePost (req : request) (st : fs) : fs * outcome :=
  let posts := readDatabase (posts_json st) in
  let content := prop "content" (body req) in
  let newPost :=
    {| Post.id := Z.of_nat (List.length posts) + 1;
       Post.username := req_username req;
       Post.content := content |} in
  let posts := posts ++ [newPost] in
  (write_posts st posts, json 201 (OnePost newPost)).

Definition fetchAllPosts (req : request) (st : fs) : fs * outcome :=
  let posts := readDatabase (posts_json st) in
  (st, json 200 (Posts posts)).

Definition fetchUserPosts (req : request) (st : fs) : fs * outcome :=
  let posts :=
    List.filter
      (fun post => strict_eq (Post.username post) (req_username req))
      (readDatabase (posts_json st)) in
  (st, json 200 (Posts posts)).

Definition handleRemovePost (req : request) (st : fs) : fs * outcome :=
  let posts := readDatabase (posts_json st) in
  let postId := prop "postId" (body req) in
  let updatedPosts :=
    List.filter (fun post => strict_neq (VNum (Post.id post)) postId) posts in
  (write_posts st updatedPosts, send "Post removed").

(** ** The libraries *)

(** [bcrypt]: [bcrypt_hash data rounds s] is [bcrypt.hash(data, rounds)]
    when the call draws the salt [s]; [bcrypt_compare data encrypted] is
    [bcrypt.compare(data, encrypted)]. Both reject data that is not a
    string. *)
Class Bcrypt : Type := {
  salt : Type;
  bcrypt_hash : string -> nat -> salt -> string;
  bcrypt_compare : string -> string -> bool
}.

(** The payload of a token: the property the program signs and the two
    timestamps, in seconds, that [jsonwebtoken] adds. *)
Record claims : Type := {
  claim_username : value;
  iat : nat;
  exp : option nat
}.

(** [jsonwebtoken]: [jwt_encode c secret] is the compact serialisation of
    [c] signed with [secret]; [jwt_decode token secret] is the payload of a
    well-formed [token] whose signature [secret] verifies. *)
Class Jwt : Type := {
  jwt_encode : claims -> string -> string;
  jwt_decode : string -> string -> option claims
}.

Inductive jwt_error : Type :=
| JsonWebTokenError
| TokenExpiredError.

Definition ONE_HOUR : nat := 3600.

Section Server.

Context {bcrypt : Bcrypt} {jsonwebtoken : Jwt}.

(** Modelled from the spec: [jsonwebtoken] is not among the sources.
    [jwt.sign({ username }, secret, { expiresIn })] at time [clock]:
    section 4.3, a signed token binding the username, with an embedded
    absolute expiry of issuance time plus [expiresIn]. *)
Definition jwt_sign (username : value) (secret : string)
           (expiresIn : nat) (clock : nat) : string :=
  jwt_encode
    {| claim_username := username;
       iat := clock;
       exp := Some (clock + expiresIn)%nat |}
    secret.

(** Modelled from the spec: [jsonwebtoken] is not among the sources.
    [jwt.verify(token, secret, callback)] at time [clock]: section 4.3,
    it checks signature validity and expiry; the callback receives an
    error or the decoded payload. *)
Definition jwt_verify (token secret : string) (clock : nat)
  : jwt_error + claims :=
  match jwt_decode token secret with
  | None => inl JsonWebTokenError
  | Some decoded =>
      match exp decoded with
      | Some e => if (e <=? clock)%nat then inl TokenExpiredError
                  else inr decoded
      | None => inr decoded
      end
  end.

Definition SECRET_KEY : string := "your_secret_key".

(** What a handler draws from outside: the clock and the salt of a
    [bcrypt.hash] call. *)
Record env : Type := { now : nat; fresh_salt : salt }.

(** *** Accounts *)

(** A record found by [find] is an object, hence truthy. When the
    password is not a string, [bcrypt.hash] rejects before anything is
    pushed or written, and the handler sends nothing. This is one call
    from its read to its write with no other write between;
    [signUp_begin] and [signUp_resume] below are its two halves, before
    and after the [await]. *)
Definition handleSignUp (req : request) (e : env) (st : fs) : fs * outcome :=
  let username := prop "username" (body req) in
  let password := prop "password" (body req) in
  let users := readDatabase (users_json st) in
  match List.find (fun user => strict_eq (User.username user) username) users with
  | Some _ => (st, json 400 (Message "User already exists"))
  | None =>
      match password with
      | VStr plain =>
          let hashedPassword := bcrypt_hash plain 10 (fresh_salt e) in
          let users :=
            users ++ [{| User.username := username;
                         User.password := hashedPassword |}] in
          (write_users st users, json 201 (Message "User registered successfully"))
      | _ => (st, Rejected)
      end
  end.

(** [!user || !(await bcrypt.compare(...))]: the comparison is only
    reached when a record was found. *)
Definition handleLogin (req : request) (e : env) (st : fs) : fs * outcome :=
  let username := prop "username" (body req) in
  let password := prop "password" (body req) in
  let users := readDatabase (users_json st) in
  match List.find (fun user => strict_eq (User.username user) username) users with
  | None => (st, json 401 (Message "Invalid credentials"))
  | Some user =>
      match password with
      | VStr plain =>
          if bcrypt_compare plain (User.password user) then
            let token := jwt_sign username SECRET_KEY ONE_HOUR (now e) in
            (st, json 200 (Token token))
          else (st, json 401 (Message "Invalid credentials"))
      | _ => (st, Rejected)
      end
  end.

Definition fetchAllAccounts (req : request) (st : fs) : fs * outcome :=
  let users := readDatabase (users_json st) in
  (st, json 200 (Users users)).

(** *** The middleware *)

(** [req.headers['authorization']?.split(' ')[1]] *)
Definition bearer (req : request) : option string :=
  match headers_authorization req with
  | None => None
  | Some header => split " " header !! 1%nat
  end.

(** Either the response that ends the request, or the request passed
    on to [next()] with [req.username] attached. *)
Definition verifyUser (req : request) (clock : nat) : response + request :=
  match bearer req with
  | None | Some EmptyString => inl (sendStatus 401)
  | Some token =>
      match jwt_verify token SECRET_KEY clock with
      | inl err => inl (sendStatus 403)
      | inr decoded =>
          inr {| headers_authorization := headers_authorization req;
                 body := body req;
                 req_username := claim_username decoded |}
      end
  end.

(** The three ways the middleware ends. *)
Inductive verdict (req : request) (clock : nat) : response + request -> Prop :=
| Missing :
    bearer req = None \/ bearer req = Some EmptyString ->
    verdict req clock (inl (sendStatus 401))
| Invalid token err :
    bearer req = Some token -> token <> EmptyString ->
    jwt_verify token SECRET_KEY clock = inl err ->
    verdict req clock (inl (sendStatus 403))
| Verified token decoded :
    bearer req = Some token -> token <> EmptyString ->
    jwt_verify token SECRET_KEY clock = inr decoded ->
    verdict req clock
      (inr {| headers_authorization := headers_authorization req;
              body := body req;
              req_username := claim_username decoded |}).

(** *** Routes *)

Inductive method : Type := GET | POST.

Inductive middleware : Type := VerifyUser.

Inductive handler : Type :=
| HandleSignUp | HandleLogin | FetchAllAccounts
| HandleRequest | FetchPendingRequests | HandleAcceptRequest
| HandleCreatePost | FetchAllPosts | FetchUserPosts
| HandlePrivacySettings | HandleRemovePost | HandleLikePost
| HandleAddComment.

Record route : Type := {
  verb : method;
  path : string;
  guards : list middleware;
  endpoint : handler
}.

Definition app : list route :=
  [ {| verb := POST; path := "/register"; guards := []; endpoint := HandleSignUp |};
    {| verb := POST; path := "/login"; guards := []; endpoint := HandleLogin |};
    {| verb := GET; path := "/accounts"; guards := [VerifyUser]; endpoint := FetchAllAccounts |};
    {| verb := POST; path := "/request"; guards := [VerifyUser]; endpoint := HandleRequest |};
    {| verb := GET; path := "/pendingRequests"; guards := [VerifyUser]; endpoint := FetchPendingRequests |};
    {| verb := POST; path := "/acceptRequest"; guards := [VerifyUser]; endpoint := HandleAcceptRequest |};
    {| verb := POST; path := "/createPost"; guards := [VerifyUser]; endpoint := HandleCreatePost |};
    {| verb := GET; path := "/posts"; guards := []; endpoint := FetchAllPosts |};
    {| verb := GET; path := "/userPosts"; guards := [VerifyUser]; endpoint := FetchUserPosts |};
    {| verb := POST; path := "/updatePrivacySettings"; guards := [VerifyUser]; endpoint := HandlePrivacySettings |};
    {| verb := POST; path := "/removePost"; guards := [VerifyUser]; endpoint := HandleRemovePost |};
    {| verb := POST; path := "/likePost"; guards := [VerifyUser]; endpoint := HandleLikePost |};
    {| verb := POST; path := "/addComment"; guards := [VerifyUser]; endpoint := HandleAddComment |} ].

Definition call (h : handler) (req : request) (e : env) (st : fs)
  : fs * outcome :=
  match h with
  | HandleSignUp => handleSignUp req e st
  | HandleLogin => handleLogin req e st
  | FetchAllAccounts => fetchAllAccounts req st
  | HandleRequest => (st, send "Request handled")
  | FetchPendingRequests => (st, send "Pending requests fetched")
  | HandleAcceptRequest => (st, send "Request accepted")
  | HandleCreatePost => handleCreatePost req st
  | FetchAllPosts => fetchAllPosts req st
  | FetchUserPosts => fetchUserPosts req st
  | HandlePrivacySettings => (st, send "Privacy settings updated")
  | HandleRemovePost => handleRemovePost req st
  | HandleLikePost => (st, send "Post liked")
  | HandleAddComment => (st, send "Comment added")
  end.

(** A request the router has matched with route [r]: the middlewares in
    order, each ending the request or passing it on, then the handler. *)
Fixpoint through (ms : list middleware) (h : handler)
         (req : request) (e : env) (st : fs) : fs * outcome :=
  match ms with
  | [] => call h req e st
  | VerifyUser :: rest =>
      match verifyUser req (now e) with
      | inl refused => (st, Responded refused)
      | inr req' => through rest h req' e st
      end
  end.

Definition serve (r : route) (req : request) (e : env) (st : fs)
  : fs * outcome :=
  through (guards r) (endpoint r) req e st.

End Server.

(** ** Requests a client sends *)

(** A JSON body with no [Authorization] header. *)
Definition post_json (b : gmap string value) : request :=
  {| headers_authorization := None; body := b; req_username := VUndef |}.

(** The body of [/register] and [/login]. *)
Definition credentials (username password : string) : request :=
  post_json {[ "username" := VStr username; "password" := VStr password ]}.

(** [Authorization: Bearer <token>] *)
Definition with_bearer (token : string) (req : request) : request :=
  {| headers_authorization := Some ("Bearer " ++ token)%string;
     body := body req;
     req_username := req_username req |}.

(** A string without the space the middleware splits the header at. *)
Definition no_space (s : string) : bool :=
  forallb (fun c => negb (Ascii.eqb c " ")) (list_ascii_of_string s).

(** ** Plain instances of the two libraries

    Transparent stand-ins that keep the data readable, to run the
    handlers on concrete requests. They offer no secrecy. *)

Module Plain.

Definition decimal (n : nat) : string :=
  NilEmpty.string_of_uint (Nat.to_uint n).

Definition number (s : string) : option nat :=
  match s with
  | EmptyString => None
  | _ => option_map Nat.of_uint (NilEmpty.uint_of_string s)
  end.

(** The text after the first [sep]. *)
Fixpoint after (sep : ascii) (s : string) : option string :=
  match s with
  | EmptyString => None
  | String c rest => if Ascii.eqb c sep then Some rest else after sep rest
  end.

(** [rounds$salt$data] *)
Definition hash (data : string) (rounds : nat) (s : nat) : string :=
  (decimal rounds ++ "$" ++ decimal s ++ "$" ++ data)%string.

Definition compare (data encrypted : string) : bool :=
  match after "$" encrypted with
  | Some rest =>
      match after "$" rest with
      | Some stored => String.eqb data stored
      | None => false
      end
  | None => false
  end.

Definition bcrypt : Bcrypt :=
  {| salt := nat; bcrypt_hash := hash; bcrypt_compare := compare |}.

(** Every character as its code followed by an underscore. *)
Fixpoint text (s : string) : string :=
  match s with
  | EmptyString => EmptyString
  | String c rest => (decimal (nat_of_ascii c) ++ "_" ++ text rest)%string
  end.

Fixpoint codes (pieces : list string) : option string :=
  match pieces with
  | [] => None
  | [last] => if String.eqb last "" then Some EmptyString else None
  | piece :: rest =>
      match number piece, codes rest with
      | Some n, Some s => Some (String (ascii_of_nat n) s)
      | _, _ => None
      end
  end.

Definition untext (s : string) : option string := codes (split "_" s).

(** A string subject is kept; any other is signed as [undefined]. *)
Definition subject (v : value) : string :=
  match v with
  | VStr s => String "s" (text s)
  | _ => "u"
  end.

Definition unsubject (s : string) : option value :=
  match s with
  | String "s" t => option_map VStr (untext t)
  | String "u" EmptyString => Some VUndef
  | _ => None
  end.

(** [secret.iat.exp.subject] *)
Definition encode (c : claims) (secret : string) : string :=
  (text secret ++ "." ++ decimal (iat c) ++ "."
     ++ match exp c with Some e => decimal e | None => "-" end
     ++ "." ++ subject (claim_username c))%string.

Definition decode (token secret : string) : option claims :=
  match split "." token with
  | [key; issued; expiry; sub] =>
      if String.eqb key (text secret) then
        match number issued, unsubject sub with
        | Some i, Some u =>
            if String.eqb expiry "-" then
              Some {| claim_username := u; iat := i; exp := None |}
            else
              match number expiry with
              | Some e => Some {| claim_username := u; iat := i; exp := Some e |}
              | None => None
              end
        | _, _ => None
        end
      else None
  | _ => None
  end.

Definition jsonwebtoken : Jwt :=
  {| jwt_encode := encode; jwt_decode := decode |}.

Definition at_time (clock : nat) (s : nat) : env (bcrypt := bcrypt) :=
  @Build_env bcrypt clock s.

Definition empty_fs : fs := {| users_json := None; posts_json := None |}.

End Plain.

(** ** Sample data *)

Module Sample.

Definition bob_1 : Post.t :=
  {| Post.id := 1; Post.username := VStr "bob"; Post.content := VStr "hi" |}.
Definition carol_2 : Post.t :=
  {| Post.id := 2; Post.username := VStr "carol"; Post.content := VStr "yo" |}.
Definition bob_3 : Post.t :=
  {| Post.id := 3; Post.username := VStr "bob"; Post.content := VNull |}.

Definition three_posts : fs :=
  {| users_json := None; posts_json := Some [bob_1; carol_2; bob_3] |}.

(** A request the middleware has let through for [username]. *)
Definition as_user (username : string) (b : gmap string value) : request :=
  {| headers_authorization := None; body := b; req_username := VStr username |}.

Definition alice : User.t :=
  {| User.username := VStr "alice"; User.password := Plain.hash "pw" 10 7 |}.

Definition alice_registered : fs :=
  {| users_json := Some [alice]; posts_json := None |}.

Definition create_post : route :=
  {| verb := POST; path := "/createPost"; guards := [VerifyUser];
     endpoint := HandleCreatePost |}.

Definition alice_token : string :=
  jwt_sign (jsonwebtoken := Plain.jsonwebtoken)
           (VStr "alice") SECRET_KEY ONE_HOUR 1000.

End Sample.

(** ** Notions for the properties of the whole server *)

(** An array or an object: [===] equates it with nothing that was parsed
    elsewhere. *)
Definition is_reference (v : value) : bool :=
  match v with
  | VArr _ | VObj _ => true
  | _ => false
  end.

(** No two records carry the same string as username. *)
Definition unique_strings (users : list User.t) : Prop :=
  forall (i j : nat) (a b : User.t) (s : string),
    users !! i = Some a -> users !! j = Some b ->
    User.username a = VStr s -> User.username b = VStr s -> i = j.

(** The posts are numbered 1, 2, ... in the order of the collection. *)
Definition numbered (posts : list Post.t) : Prop :=
  Post.id <$> posts = (fun k => Z.of_nat k) <$> seq 1 (List.length posts).

(** The request [verifyUser] passes on once a token decoded to
    [username]. *)
Definition passed_on (req : request) (username : value) : request :=
  {| headers_authorization := headers_authorization req;
     body := body req;
     req_username := username |}.

(** One [/createPost] after the other, each let through as it is. *)
Definition creates (reqs : list request) (st : fs) : fs :=
  foldl (fun st req => fst (handleCreatePost req st)) st reqs.

Module Routes.

Definition register : route :=
  {| verb := POST; path := "/register"; guards := [];
     endpoint := HandleSignUp |}.
Definition login : route :=
  {| verb := POST; path := "/login"; guards := [];
     endpoint := HandleLogin |}.
Definition accounts : route :=
  {| verb := GET; path := "/accounts"; guards := [VerifyUser];
     endpoint := FetchAllAccounts |}.
Definition posts : route :=
  {| verb := GET; path := "/posts"; guards := [];
     endpoint := FetchAllPosts |}.
Definition user_posts : route :=
  {| verb := GET; path := "/userPosts"; guards := [VerifyUser];
     endpoint := FetchUserPosts |}.
Definition remove_post : route :=
  {| verb := POST; path := "/removePost"; guards := [VerifyUser];
     endpoint := HandleRemovePost |}.

End Routes.

(** ** What [bcrypt] keeps of a password *)

(** Modelled from the documentation of [bcrypt], which is not among the
    sources: only the first 72 bytes of the data enter the hash. *)
Definition kept (data : string) : string := substring 0 72 data.

(** [Plain.bcrypt] applied to the bytes kept. *)
Module Truncating.

Definition hash (data : string) (rounds : nat) (s : nat) : string :=
  Plain.hash (kept data) rounds s.

Definition compare (data encrypted : string) : bool :=
  Plain.compare (kept data) encrypted.

Definition bcrypt : Bcrypt :=
  {| salt := nat; bcrypt_hash := hash; bcrypt_compare := compare |}.

Definition at_time (clock : nat) (s : nat) : env (bcrypt := bcrypt) :=
  @Build_env bcrypt clock s.


End Truncating.

(** ** A sign-up on either side of its [await] *)

(** What [handleSignUp] holds while it awaits [bcrypt.hash]: the array
    it has read and the two properties of the body. *)
Record pending : Type := {
  read_users : list User.t;
  new_username : value;
  plain_password : string
}.

(** [handleSignUp] up to the [await]: it has answered 400, or its call
    of [bcrypt.hash] is rejected, or it awaits the hash. *)
Definition signUp_begin (req : request) (st : fs) : outcome + pending :=
  let username := prop "username" (body req) in
  let password := prop "password" (body req) in
  let users := readDatabase (users_json st) in
  match List.find (fun user => strict_eq (User.username user) username) users with
  | Some _ => inl (json 400 (Message "User already exists"))
  | None =>
      match password with
      | VStr plain =>
          inr {| read_users := users;
                 new_username := username;
                 plain_password := plain |}
      | _ => inl Rejected
      end
  end.

Section Await.

Context {bcrypt : Bcrypt}.

(** [handleSignUp] from the [await] on, on the files as they are by
    then: it pushes onto the array it read before and writes that. *)
Definition signUp_resume (waiting : pending) (e : env) (st : fs)
  : fs * outcome :=
  let hashedPassword := bcrypt_hash (plain_password waiting) 10 (fresh_salt e) in
  let users :=
    read_users waiting ++ [{| User.username := new_username waiting;
                              User.password := hashedPassword |}] in
  (write_users st users, json 201 (Message "User registered successfully")).

End Await.

Example plain_hash : Plain.hash "pw" 10 7 = "10$7$pw".
Proof. reflexivity. Qed.

Example plain_token :
  jwt_sign (jsonwebtoken := Plain.jsonwebtoken) (VStr "al") "k" ONE_HOUR 5
  = "107_.5.3605.s97_108_".
Proof. reflexivity. Qed.

Example plain_token_decodes :
  Plain.decode "107_.5.3605.s97_108_" "k"
  = Some {| claim_username := VStr "al"; iat := 5; exp := Some 3605%nat |}.
Proof. reflexivity. Qed.

(** * Properties *)

(** ** Strict equality and the array methods *)

Lemma strict_eq_num (n : Z) (v : value) :
  strict_eq (VNum n) v = true <-> v = VNum n.
Proof.
  destruct v; simpl; split; try discriminate.
  - intros Heq%Z.eqb_eq. by subst.
  - intros [= ->]. apply Z.eqb_refl.
Qed.

Lemma strict_eq_str (v : value) (s : string) :
  strict_eq v (VStr s) = true <-> v = VStr s.
Proof.
  destruct v; simpl; split; try discriminate.
  - intros Heq%String.eqb_eq. by subst.
  - intros [= ->]. apply String.eqb_refl.
Qed.

Lemma strict_neq_num (n : Z) (v : value) :
  strict_neq (VNum n) v = true <-> v <> VNum n.
Proof.
  unfold strict_neq. rewrite negb_true_iff, <- not_true_iff_false.
  by rewrite strict_eq_num.
Qed.

(** [Array.prototype.filter] with a callback that decides [P] keeps
    exactly the elements with [P], in order. *)
Lemma filter_callback {A : Type} (f : A -> bool) (P : A -> Prop)
      `{!forall x, Decision (P x)} (l : list A) :
  (forall x, f x = true <-> P x) -> List.filter f l = filter P l.
Proof.
  intros Hf. induction l as [|x l IH]; [done|].
  simpl. rewrite filter_cons, IH.
  destruct (f x) eqn:Hx; case_decide as HP; try done.
  - by apply Hf in Hx.
  - apply Hf in HP. congruence.
Qed.

Lemma filter_all {A : Type} (P : A -> Prop) `{!forall x, Decision (P x)}
      (l : list A) :
  (forall x, x ∈ l -> P x) -> filter P l = l.
Proof.
  induction l as [|x l IH]; intros Hall; [done|].
  rewrite filter_cons, decide_True by (apply Hall; left).
  f_equal. apply IH. intros y Hy. apply Hall. by right.
Qed.

(** [Array.prototype.find]: the first element the callback accepts. *)
Lemma find_first {A : Type} (f : A -> bool) (l : list A) (x : A) :
  List.find f l = Some x <->
  exists before rest,
    l = before ++ x :: rest /\ f x = true /\ forall y, y ∈ before -> f y = false.
Proof.
  split.
  - induction l as [|a l IH]; simpl; [discriminate|].
    destruct (f a) eqn:Ha.
    + intros [= ->]. exists [], l. split_and!; [done..|].
      intros y Hy. by apply elem_of_nil in Hy.
    + intros (before & rest & -> & Hx & Hb)%IH.
      exists (a :: before), rest. split_and!; [done..|].
      intros y [->|Hy]%elem_of_cons; auto.
  - intros (before & rest & -> & Hx & Hb).
    induction before as [|a before IH]; simpl.
    + by rewrite Hx.
    + rewrite (Hb a) by left. apply IH. intros y Hy. apply Hb. by right.
Qed.

Lemma find_none {A : Type} (f : A -> bool) (l : list A) :
  List.find f l = None <-> forall y, y ∈ l -> f y = false.
Proof.
  induction l as [|a l IH]; simpl.
  - split; [|done]. intros _ y Hy. by apply elem_of_nil in Hy.
  - destruct (f a) eqn:Ha.
    + split; [discriminate|]. intros Hall. specialize (Hall a). rewrite Ha in Hall.
      discriminate Hall. left.
    + rewrite IH. split.
      * intros Hall y [->|Hy]%elem_of_cons; auto.
      * intros Hall y Hy. apply Hall. by right.
Qed.

(** ** The post registry *)

(** C5: creating a post gives it the id [count + 1], appends it to the
    collection, writes the collection back and answers 201 with the new
    record; on an empty collection the id is 1, and the id of the post
    created next is 2. *)
Theorem create_assigns_count_plus_one (req next : request) (st : fs) :
  let posts := readDatabase (posts_json st) in
  let newPost :=
    {| Post.id := Z.of_nat (List.length posts) + 1;
       Post.username := req_username req;
       Post.content := prop "content" (body req) |} in
  let st' := fst (handleCreatePost req st) in
  snd (handleCreatePost req st) = json 201 (OnePost newPost)
  /\ posts_json st' = Some (posts ++ [newPost])
  /\ users_json st' = users_json st
  /\ (posts = [] ->
      Post.id newPost = 1
      /\ exists second,
          snd (handleCreatePost next st') = json 201 (OnePost second)
          /\ Post.id second = 2
          /\ readDatabase (posts_json (fst (handleCreatePost next st')))
             = [newPost; second]).
Proof.
  intros posts newPost st'. split_and!; try reflexivity.
  intros Hempty. subst newPost st'. unfold posts in *. simpl.
  rewrite !Hempty. split; [reflexivity|].
  eexists. split_and!; reflexivity.
Qed.

(** C6: removing by a numeric id answers "Post removed", keeps exactly
    the records whose id differs, each as it was and in the order they
    had, and when no record has the id the collection is as before. *)
Theorem remove_by_id (i : Z) (req : request) (st : fs) :
  prop "postId" (body req) = VNum i ->
  let before := readDatabase (posts_json st) in
  let st' := fst (handleRemovePost req st) in
  let after := readDatabase (posts_json st') in
  snd (handleRemovePost req st) = send "Post removed"
  /\ after = filter (fun p => Post.id p <> i) before
  /\ after `sublist_of` before
  /\ (forall p, p ∈ after <-> p ∈ before /\ Post.id p <> i)
  /\ ((forall p, p ∈ before -> Post.id p <> i) -> after = before)
  /\ users_json st' = users_json st.
Proof.
  intros HpostId before st' after.
  assert (Hafter : after = filter (fun p => Post.id p <> i) before).
  { subst after st'. unfold handleRemovePost. simpl. rewrite HpostId.
    apply filter_callback. intros p. rewrite strict_neq_num.
    split; intros Hne; congruence. }
  split_and!; try reflexivity; try exact Hafter.
  - rewrite Hafter. apply sublist_filter.
  - intros p. rewrite Hafter, list_elem_of_filter. tauto.
  - intros Hnone. rewrite Hafter. by apply filter_all.
Qed.

(** C10: removal compares with [!==]: a record goes exactly when the
    supplied postId is the number its id is; a postId of another type,
    such as a string, matches no record, and then the collection is
    written back as it was and the answer is still "Post removed". *)
Theorem remove_compares_strictly (req : request) (st : fs) :
  let postId := prop "postId" (body req) in
  let before := readDatabase (posts_json st) in
  let st' := fst (handleRemovePost req st) in
  let after := readDatabase (posts_json st') in
  snd (handleRemovePost req st) = send "Post removed"
  /\ after = filter (fun p => postId <> VNum (Post.id p)) before
  /\ (forall p, p ∈ before -> (p ∉ after <-> postId = VNum (Post.id p)))
  /\ ((forall p, p ∈ before -> postId <> VNum (Post.id p)) ->
      posts_json st' = Some before)
  /\ (forall s, postId = VStr s -> posts_json st' = Some before).
Proof.
  intros postId before st' after.
  assert (Hafter : after = filter (fun p => postId <> VNum (Post.id p)) before).
  { subst after st'. unfold handleRemovePost. simpl. fold postId.
    apply filter_callback. intros p. apply strict_neq_num. }
  assert (Hnone : (forall p, p ∈ before -> postId <> VNum (Post.id p)) ->
                  posts_json st' = Some before).
  { intros Hall. change (posts_json st') with (Some after).
    f_equal. rewrite Hafter. by apply filter_all. }
  split_and!; try reflexivity; try assumption.
  - intros p Hin. rewrite Hafter, list_elem_of_filter. split.
    + intros Hout. destruct (decide (postId = VNum (Post.id p))); [done|].
      exfalso. apply Hout. by split.
    + intros Heq [Hne _]. by apply Hne.
  - intros s Hs. apply Hnone. intros p _. rewrite Hs. discriminate.
Qed.

(** C7: the posts of an owner are exactly the records whose username is
    that string, in the order of the collection, and nothing is written. *)
Theorem list_by_owner (owner : string) (req : request) (st : fs) :
  req_username req = VStr owner ->
  let posts := readDatabase (posts_json st) in
  exists mine,
    fetchUserPosts req st = (st, json 200 (Posts mine))
    /\ mine = filter (fun p => Post.username p = VStr owner) posts
    /\ mine `sublist_of` posts
    /\ (forall p, p ∈ mine <-> p ∈ posts /\ Post.username p = VStr owner).
Proof.
  intros Howner posts.
  assert (Hmine :
    List.filter (fun post => strict_eq (Post.username post) (req_username req)) posts
    = filter (fun p => Post.username p = VStr owner) posts).
  { apply filter_callback. intros p. rewrite Howner. apply strict_eq_str. }
  eexists. split; [reflexivity|]. fold posts. rewrite Hmine. split_and!.
  - reflexivity.
  - apply sublist_filter.
  - intros p. rewrite list_elem_of_filter. tauto.
Qed.

(** ** Requests *)

Lemma credentials_username (u p : string) :
  prop "username" (body (credentials u p)) = VStr u.
Proof. reflexivity. Qed.

Lemma credentials_password (u p : string) :
  prop "password" (body (credentials u p)) = VStr p.
Proof. reflexivity. Qed.

Lemma split_no_sep (sep : ascii) (s : string) :
  forallb (fun c => negb (Ascii.eqb c sep)) (list_ascii_of_string s) = true ->
  split sep s = [s].
Proof.
  induction s as [|c s IH]; simpl; [done|].
  intros [Hc Hs]%andb_true_iff. apply negb_true_iff in Hc.
  by rewrite Hc, IH.
Qed.

(** The middleware reads back the token of a [Bearer] header, as long as
    the token has no space in it. *)
Lemma bearer_with_bearer (token : string) (req : request) :
  no_space token = true -> bearer (with_bearer token req) = Some token.
Proof.
  intros Hns. unfold bearer, with_bearer. simpl.
  change (String.append "" token) with token.
  by rewrite (split_no_sep " " token Hns).
Qed.

Section Accounts.

Context {bcrypt : Bcrypt} {jsonwebtoken : Jwt}.

Implicit Types (u p w : string) (e : env) (st : fs).

(** The lookup both account handlers start with. *)
Lemma find_username_absent u (users : list User.t) :
  (forall user, user ∈ users -> User.username user <> VStr u) ->
  List.find (fun user => strict_eq (User.username user) (VStr u)) users = None.
Proof.
  intros Habsent. apply find_none. intros user Hin.
  apply not_true_iff_false. rewrite strict_eq_str. by apply Habsent.
Qed.

Lemma find_username_first u (before rest : list User.t) (user : User.t) :
  (forall x, x ∈ before -> User.username x <> VStr u) ->
  User.username user = VStr u ->
  List.find (fun user => strict_eq (User.username user) (VStr u))
            (before ++ user :: rest) = Some user.
Proof.
  intros Hbefore Huser. apply find_first. exists before, rest.
  split_and!; [done|by apply strict_eq_str|].
  intros x Hx. apply not_true_iff_false. rewrite strict_eq_str.
  by apply Hbefore.
Qed.

Lemma find_username_present u (users : list User.t) :
  (exists user, user ∈ users /\ User.username user = VStr u) ->
  exists found,
    List.find (fun user => strict_eq (User.username user) (VStr u)) users
    = Some found.
Proof.
  intros (user & Hin & Huser).
  destruct (List.find _ users) as [found|] eqn:Hfind; [by exists found|].
  rewrite find_none in Hfind. specialize (Hfind user Hin).
  apply not_true_iff_false in Hfind. by rewrite strict_eq_str in Hfind.
Qed.

Lemma handleSignUp_taken u p e st :
  (exists user, user ∈ readDatabase (users_json st)
                /\ User.username user = VStr u) ->
  handleSignUp (credentials u p) e st
  = (st, json 400 (Message "User already exists")).
Proof.
  unfold handleSignUp. rewrite credentials_username.
  intros [found ->]%find_username_present. reflexivity.
Qed.

Lemma handleSignUp_new u p e st :
  (forall user, user ∈ readDatabase (users_json st) ->
                User.username user <> VStr u) ->
  handleSignUp (credentials u p) e st
  = ({| users_json :=
          Some (readDatabase (users_json st) ++
                  [{| User.username := VStr u;
                      User.password := bcrypt_hash p 10 (fresh_salt e) |}]);
        posts_json := posts_json st |},
     json 201 (Message "User registered successfully")).
Proof.
  unfold handleSignUp. rewrite credentials_username, credentials_password.
  intros ->%find_username_absent. reflexivity.
Qed.

(** C2: when the collection has a record with exactly the requested
    username, registration answers 400 and leaves both files as they
    were; otherwise it hashes the password with 10 rounds, appends the
    record, writes the collection and answers 201. *)
Theorem register_checks_username u p e st :
  let users := readDatabase (users_json st) in
  ((exists user, user ∈ users /\ User.username user = VStr u) ->
     handleSignUp (credentials u p) e st
     = (st, json 400 (Message "User already exists")))
  /\ ((forall user, user ∈ users -> User.username user <> VStr u) ->
      handleSignUp (credentials u p) e st
      = ({| users_json :=
              Some (users ++
                      [{| User.username := VStr u;
                          User.password :=
                            bcrypt_hash p 10 (fresh_salt e) |}]);
            posts_json := posts_json st |},
         json 201 (Message "User registered successfully"))).
Proof.
  intros users. split.
  - apply handleSignUp_taken.
  - apply handleSignUp_new.
Qed.

(** C8: a login for a username no record has, and a login whose
    password the stored hash of the record does not verify, get the one
    same answer, 401 "Invalid credentials", and write nothing. *)
Theorem login_fails_uniformly u p e (absent present : fs)
        (before rest : list User.t) (user : User.t) :
  (forall x, x ∈ readDatabase (users_json absent) -> User.username x <> VStr u) ->
  readDatabase (users_json present) = before ++ user :: rest ->
  (forall x, x ∈ before -> User.username x <> VStr u) ->
  User.username user = VStr u ->
  bcrypt_compare p (User.password user) = false ->
  handleLogin (credentials u p) e absent
  = (absent, json 401 (Message "Invalid credentials"))
  /\ handleLogin (credentials u p) e present
     = (present, json 401 (Message "Invalid credentials"))
  /\ snd (handleLogin (credentials u p) e absent)
     = snd (handleLogin (credentials u p) e present).
Proof.
  intros Habsent Hpresent Hbefore Huser Hwrong.
  assert (H1 : handleLogin (credentials u p) e absent
               = (absent, json 401 (Message "Invalid credentials"))).
  { unfold handleLogin. rewrite credentials_username.
    by rewrite (find_username_absent _ _ Habsent). }
  assert (H2 : handleLogin (credentials u p) e present
               = (present, json 401 (Message "Invalid credentials"))).
  { unfold handleLogin. rewrite credentials_username, credentials_password.
    rewrite Hpresent, (find_username_first _ _ _ _ Hbefore Huser).
    by rewrite Hwrong. }
  split_and!; [done..|]. by rewrite H1, H2.
Qed.


End Accounts.

(** ** Session tokens and the middleware *)

Section Tokens.

Context {bcrypt : Bcrypt} {jsonwebtoken : Jwt}.

Lemma verifyUser_verdict (req : request) (clock : nat) :
  verdict req clock (verifyUser req clock).
Proof.
  unfold verifyUser.
  destruct (bearer req) as [[|c token]|] eqn:Hbearer.
  - apply Missing. by right.
  - destruct (jwt_verify _ _ _) as [err|decoded] eqn:Hverify.
    + by eapply Invalid.
    + by eapply Verified.
  - apply Missing. by left.
Qed.

Lemma verifyUser_accepts (req : request) (token : string) (clock : nat)
      (decoded : claims) :
  bearer req = Some token -> token <> EmptyString ->
  jwt_verify token SECRET_KEY clock = inr decoded ->
  verifyUser req clock
  = inr {| headers_authorization := headers_authorization req;
           body := body req;
           req_username := claim_username decoded |}.
Proof.
  intros Hb Hne Hv. unfold verifyUser. rewrite Hb.
  destruct token as [|c token]; [done|]. by rewrite Hv.
Qed.

Lemma verifyUser_refuses (req : request) (token : string) (clock : nat)
      (err : jwt_error) :
  bearer req = Some token -> token <> EmptyString ->
  jwt_verify token SECRET_KEY clock = inl err ->
  verifyUser req clock = inl (sendStatus 403).
Proof.
  intros Hb Hne Hv. unfold verifyUser. rewrite Hb.
  destruct token as [|c token]; [done|]. by rewrite Hv.
Qed.

(** A token past its expiry is an error of [jwt.verify], whatever the
    rest of it. *)
Lemma jwt_verify_expired (token : string) (c : claims) (expiry clock : nat) :
  jwt_decode token SECRET_KEY = Some c ->
  exp c = Some expiry ->
  (expiry <= clock)%nat ->
  jwt_verify token SECRET_KEY clock = inl TokenExpiredError.
Proof.
  intros Hdecode Hexp Hpast. unfold jwt_verify. rewrite Hdecode, Hexp.
  by rewrite (proj2 (Nat.leb_le _ _) Hpast).
Qed.

Lemma jwt_verify_live (token : string) (c : claims) (expiry clock : nat) :
  jwt_decode token SECRET_KEY = Some c ->
  exp c = Some expiry ->
  (clock < expiry)%nat ->
  jwt_verify token SECRET_KEY clock = inr c.
Proof.
  intros Hdecode Hexp Hlive. unfold jwt_verify. rewrite Hdecode, Hexp.
  by rewrite (proj2 (Nat.leb_gt _ _) Hlive).
Qed.

(** C3: the token a successful login answers with is the signed
    payload of the username, issued at the time of the login and
    expiring 3600 seconds later. Sent back at once as a [Bearer]
    header it passes the middleware, which attaches that username, and
    so it does until the expiry; from the expiry on, like any token
    whose expiry is not in the future, it is refused with 403.
    [jsonwebtoken] is taken to decode the payload it signed and to
    produce a non-empty token without spaces. *)
Theorem issued_token_is_accepted
        (req next : request) (e : env) (st st' : fs) (token : string) :
  let username := prop "username" (body req) in
  let signed :=
    {| claim_username := username;
       iat := now e;
       exp := Some (now e + 3600)%nat |} in
  handleLogin req e st = (st', json 200 (Token token)) ->
  jwt_decode (jwt_encode signed SECRET_KEY) SECRET_KEY = Some signed ->
  jwt_encode signed SECRET_KEY <> EmptyString ->
  no_space (jwt_encode signed SECRET_KEY) = true ->
  let accepted :=
    {| headers_authorization := headers_authorization (with_bearer token next);
       body := body next;
       req_username := username |} in
  token = jwt_encode signed SECRET_KEY
  /\ verifyUser (with_bearer token next) (now e) = inr accepted
  /\ (forall clock, (clock < now e + 3600)%nat ->
      verifyUser (with_bearer token next) clock = inr accepted)
  /\ (forall clock, (now e + 3600 <= clock)%nat ->
      verifyUser (with_bearer token next) clock = inl (sendStatus 403))
  /\ (forall (other : request) (presented : string) (c : claims)
             (expiry clock : nat),
      bearer other = Some presented -> presented <> EmptyString ->
      jwt_decode presented SECRET_KEY = Some c ->
      exp c = Some expiry -> (expiry < clock)%nat ->
      verifyUser other clock = inl (sendStatus 403)).
Proof.
  intros username signed Hlogin Hdecode Hnonempty Hcompact accepted.
  assert (Htoken : token = jwt_encode signed SECRET_KEY).
  { unfold handleLogin, json in Hlogin. fold username in Hlogin.
    destruct (List.find _ _) as [user|]; [|discriminate Hlogin].
    destruct (prop "password" (body req)); try discriminate Hlogin.
    destruct (bcrypt_compare _ _); [|discriminate Hlogin].
    injection Hlogin as _ Htok. rewrite <- Htok. reflexivity. }
  assert (Hbearer : bearer (with_bearer token next) = Some token).
  { apply bearer_with_bearer. by rewrite Htoken. }
  assert (Hlive : forall clock, (clock < now e + 3600)%nat ->
              verifyUser (with_bearer token next) clock = inr accepted).
  { intros clock Hclock.
    rewrite (verifyUser_accepts (with_bearer token next) token clock signed);
      [reflexivity|done|congruence|].
    rewrite Htoken. by apply (jwt_verify_live _ signed (now e + 3600)). }
  split_and!; [done|apply Hlive; lia|done| |].
  - intros clock Hclock.
    apply (verifyUser_refuses _ token clock TokenExpiredError);
      [done|congruence|].
    rewrite Htoken. by apply (jwt_verify_expired _ signed (now e + 3600)).
  - intros other presented c expiry clock Hother Hpresented Hc Hexp Hpast.
    apply (verifyUser_refuses _ presented clock TokenExpiredError);
      [done..|].
    apply (jwt_verify_expired _ c expiry); [done..|lia].
Qed.

(** The routes behind the middleware have it as their only guard, and
    their handlers answer 200 or 201. *)
Lemma guarded_routes (r : route) :
  r ∈ app -> VerifyUser ∈ guards r ->
  guards r = [VerifyUser]
  /\ forall (req : request) (e : env) (st : fs) (resp : response),
      snd (call (endpoint r) req e st) = Responded resp ->
      status resp = 200%nat \/ status resp = 201%nat.
Proof.
  unfold app. intros Hin Hguard.
  repeat (apply elem_of_cons in Hin as [->|Hin]);
    try (by apply elem_of_nil in Hin);
    try (by apply elem_of_nil in Hguard);
    (split; [reflexivity|]);
    intros req e st resp [= <-]; simpl; auto.
Qed.

(** C4: on every route behind the middleware, a request with no token
    is answered 401 and one whose token [jwt.verify] refuses is answered
    403, the handler not being run; and a 401 or a 403 from such a route
    means the one or the other, never both. *)
Theorem missing_and_invalid_are_distinct
        (r : route) (req : request) (e : env) (st : fs) :
  r ∈ app -> VerifyUser ∈ guards r ->
  ((bearer req = None \/ bearer req = Some EmptyString) ->
     serve r req e st = (st, Responded (sendStatus 401)))
  /\ (forall token err,
        bearer req = Some token -> token <> EmptyString ->
        jwt_verify token SECRET_KEY (now e) = inl err ->
        serve r req e st = (st, Responded (sendStatus 403)))
  /\ (forall resp,
        snd (serve r req e st) = Responded resp ->
        (status resp = 401%nat <->
           (bearer req = None \/ bearer req = Some EmptyString))
        /\ (status resp = 403%nat <->
              exists token err,
                bearer req = Some token /\ token <> EmptyString
                /\ jwt_verify token SECRET_KEY (now e) = inl err)).
Proof.
  intros Hin Hguard.
  destruct (guarded_routes r Hin Hguard) as [Hguards Hstatus].
  unfold serve. rewrite Hguards. simpl.
  pose proof (verifyUser_verdict req (now e)) as Hverdict.
  destruct Hverdict as [Hmissing|token err Hb Hne Hv|token decoded Hb Hne Hv].
  - split_and!; [done| |].
    + intros token err Hb Hne _. destruct Hmissing; congruence.
    + intros resp [= <-]. simpl. split; [done|]. split; [done|].
      intros (token & err & Hb & Hne & _). destruct Hmissing; congruence.
  - split_and!.
    + intros [Hnone|Hempty]; congruence.
    + done.
    + intros resp [= <-]. simpl. split.
      * split; [done|]. intros [Hnone|Hempty]; congruence.
      * split; [|done]. intros _. by exists token, err.
  - split_and!.
    + intros [Hnone|Hempty]; congruence.
    + intros token' err Hb' _ Hv'. congruence.
    + intros resp Hresp. apply Hstatus in Hresp. split; split.
      * lia.
      * intros [Hnone|Hempty]; congruence.
      * lia.
      * intros (token' & err & Hb' & _ & Hv'). congruence.
Qed.

End Tokens.

(** ** Runs on the sample data *)

(** bob's first post on an empty collection gets id 1 and carol's, made
    next, id 2. *)
Lemma create_on_empty_collection :
  let hi := Sample.as_user "bob" {[ "content" := VStr "hi" ]} in
  let yo := Sample.as_user "carol" {[ "content" := VStr "yo" ]} in
  let st1 := fst (handleCreatePost hi Plain.empty_fs) in
  snd (handleCreatePost hi Plain.empty_fs) = json 201 (OnePost Sample.bob_1)
  /\ snd (handleCreatePost yo st1) = json 201 (OnePost Sample.carol_2)
  /\ readDatabase (posts_json (fst (handleCreatePost yo st1)))
     = [Sample.bob_1; Sample.carol_2].
Proof.
  intros hi yo st1.
  destruct (create_assigns_count_plus_one hi yo Plain.empty_fs)
    as (Hfirst & _ & _ & Hnext).
  destruct (Hnext eq_refl) as (Hone & _).
  split; [exact Hfirst|]. split; reflexivity.
Defined.

(** Removing id 1 from three posts leaves the other two as they were. *)
Lemma remove_first_of_three :
  let req := post_json {[ "postId" := VNum 1 ]} in
  prop "postId" (body req) = VNum 1
  /\ readDatabase (posts_json (fst (handleRemovePost req Sample.three_posts)))
     = [Sample.carol_2; Sample.bob_3]
  /\ snd (handleRemovePost req Sample.three_posts) = send "Post removed".
Proof.
  intros req. split; [reflexivity|].
  destruct (remove_by_id 1 req Sample.three_posts eq_refl)
    as (Hsent & Hafter & _).
  split; [|exact Hsent]. rewrite Hafter. reflexivity.
Defined.

(** The string "1" is not the id 1: nothing is removed. *)
Lemma remove_string_one :
  let req := post_json {[ "postId" := VStr "1" ]} in
  posts_json (fst (handleRemovePost req Sample.three_posts))
  = Some [Sample.bob_1; Sample.carol_2; Sample.bob_3]
  /\ snd (handleRemovePost req Sample.three_posts) = send "Post removed".
Proof.
  intros req.
  destruct (remove_compares_strictly req Sample.three_posts)
    as (Hsent & _ & _ & _ & Hstring).
  split; [exact (Hstring "1" eq_refl)|exact Hsent].
Defined.

(** bob's posts among the three, in their order. *)
Lemma posts_of_bob :
  let req := Sample.as_user "bob" ∅ in
  req_username req = VStr "bob"
  /\ fetchUserPosts req Sample.three_posts
     = (Sample.three_posts, json 200 (Posts [Sample.bob_1; Sample.bob_3])).
Proof.
  intros req. split; [reflexivity|].
  destruct (list_by_owner "bob" req Sample.three_posts eq_refl)
    as (mine & Hfetch & Hmine & _).
  rewrite Hfetch, Hmine. reflexivity.
Defined.

(** alice registers once; the second attempt answers 400 and changes
    nothing; "Alice" is another username. *)
Lemma register_alice_twice :
  let e := Plain.at_time 1000 7 in
  handleSignUp (bcrypt := Plain.bcrypt) (credentials "alice" "pw") e Plain.empty_fs
  = (Sample.alice_registered, json 201 (Message "User registered successfully"))
  /\ handleSignUp (bcrypt := Plain.bcrypt) (credentials "alice" "other") e
                   Sample.alice_registered
     = (Sample.alice_registered, json 400 (Message "User already exists"))
  /\ snd (handleSignUp (bcrypt := Plain.bcrypt) (credentials "Alice" "pw") e
                       Sample.alice_registered)
     = json 201 (Message "User registered successfully").
Proof.
  intros e. split_and!.
  - destruct (register_checks_username (bcrypt := Plain.bcrypt)
                "alice" "pw" e Plain.empty_fs) as [_ Hnew].
    rewrite Hnew; [reflexivity|].
    intros user Hin. by apply elem_of_nil in Hin.
  - destruct (register_checks_username (bcrypt := Plain.bcrypt)
                "alice" "other" e Sample.alice_registered) as [Htaken _].
    apply Htaken. exists Sample.alice. split; [left|reflexivity].
  - destruct (register_checks_username (bcrypt := Plain.bcrypt)
                "Alice" "pw" e Sample.alice_registered) as [_ Hnew].
    rewrite Hnew; [reflexivity|].
    intros user [->|Hin]%elem_of_cons; [discriminate|].
    by apply elem_of_nil in Hin.
Defined.

(** carol, who has no account, and alice with a wrong password get the
    same answer. *)
Lemma login_unknown_or_wrong :
  let e := Plain.at_time 1000 7 in
  bcrypt_compare (Bcrypt := Plain.bcrypt) "wrong" (User.password Sample.alice)
  = false
  /\ handleLogin (bcrypt := Plain.bcrypt) (jsonwebtoken := Plain.jsonwebtoken)
                 (credentials "alice" "wrong") e Plain.empty_fs
     = (Plain.empty_fs, json 401 (Message "Invalid credentials"))
  /\ handleLogin (bcrypt := Plain.bcrypt) (jsonwebtoken := Plain.jsonwebtoken)
                 (credentials "alice" "wrong") e Sample.alice_registered
     = (Sample.alice_registered, json 401 (Message "Invalid credentials")).
Proof.
  intros e. split; [reflexivity|].
  destruct (login_fails_uniformly
              (bcrypt := Plain.bcrypt) (jsonwebtoken := Plain.jsonwebtoken)
              "alice" "wrong" e Plain.empty_fs Sample.alice_registered
              [] [] Sample.alice) as (Habsent & Hpresent & _).
  - intros x Hx. by apply elem_of_nil in Hx.
  - reflexivity.
  - intros x Hx. by apply elem_of_nil in Hx.
  - reflexivity.
  - reflexivity.
  - split; [exact Habsent|exact Hpresent].
Defined.



(** The token alice gets at time 1000 is accepted at once and refused
    from time 4600 on. *)
Lemma alice_token_lifetime :
  let e := Plain.at_time 1000 8 in
  let next := post_json {[ "content" := VStr "hi" ]} in
  handleLogin (bcrypt := Plain.bcrypt) (jsonwebtoken := Plain.jsonwebtoken)
              (credentials "alice" "pw") e Sample.alice_registered
  = (Sample.alice_registered, json 200 (Token Sample.alice_token))
  /\ Plain.decode Sample.alice_token SECRET_KEY
     = Some {| claim_username := VStr "alice"; iat := 1000;
               exp := Some 4600%nat |}
  /\ no_space Sample.alice_token = true
  /\ verifyUser (jsonwebtoken := Plain.jsonwebtoken)
                (with_bearer Sample.alice_token next) 1000
     = inr {| headers_authorization :=
                headers_authorization (with_bearer Sample.alice_token next);
              body := body next;
              req_username := VStr "alice" |}
  /\ verifyUser (jsonwebtoken := Plain.jsonwebtoken)
                (with_bearer Sample.alice_token next) 4600
     = inl (sendStatus 403).
Proof.
  intros e next. split; [reflexivity|]. split; [reflexivity|].
  split; [reflexivity|].
  destruct (issued_token_is_accepted
              (bcrypt := Plain.bcrypt) (jsonwebtoken := Plain.jsonwebtoken)
              (credentials "alice" "pw") next e
              Sample.alice_registered Sample.alice_registered
              Sample.alice_token)
    as (_ & Hnow & _ & Hlate & _).
  - reflexivity.
  - reflexivity.
  - discriminate.
  - reflexivity.
  - split; [exact Hnow|]. apply (Hlate 4600%nat). apply Nat.le_refl.
Defined.

(** [/createPost] without a header answers 401, with a token that is not
    one answers 403, and nothing is written. *)
Lemma create_post_unauthenticated :
  let e := Plain.at_time 1000 8 in
  let req := post_json {[ "content" := VStr "hi" ]} in
  Sample.create_post ∈ app
  /\ VerifyUser ∈ guards Sample.create_post
  /\ serve (bcrypt := Plain.bcrypt) (jsonwebtoken := Plain.jsonwebtoken)
           Sample.create_post req e Plain.empty_fs
     = (Plain.empty_fs,
        Responded {| status := 401; sent := Text "Unauthorized" |})
  /\ serve (bcrypt := Plain.bcrypt) (jsonwebtoken := Plain.jsonwebtoken)
           Sample.create_post (with_bearer "garbage" req) e Plain.empty_fs
     = (Plain.empty_fs,
        Responded {| status := 403; sent := Text "Forbidden" |}).
Proof.
  intros e req.
  assert (Hroute : Sample.create_post ∈ app) by (unfold app; repeat constructor).
  assert (Hguard : VerifyUser ∈ guards Sample.create_post) by left.
  split; [exact Hroute|]. split; [exact Hguard|]. split.
  - destruct (missing_and_invalid_are_distinct
                (bcrypt := Plain.bcrypt) (jsonwebtoken := Plain.jsonwebtoken)
                Sample.create_post req e Plain.empty_fs Hroute Hguard)
      as (Hmissing & _).
    apply Hmissing. left. reflexivity.
  - destruct (missing_and_invalid_are_distinct
                (bcrypt := Plain.bcrypt) (jsonwebtoken := Plain.jsonwebtoken)
                Sample.create_post (with_bearer "garbage" req) e
                Plain.empty_fs Hroute Hguard)
      as (_ & Hinvalid & _).
    apply (Hinvalid "garbage" JsonWebTokenError); [reflexivity|discriminate|reflexivity].
Defined.

(** * Further properties of the server *)

(** ** The Authorization header *)

Lemma split_app_sep (sep : ascii) (a b : string) :
  forallb (fun c => negb (Ascii.eqb c sep)) (list_ascii_of_string a) = true ->
  split sep (a ++ String sep b)%string = a :: split sep b.
Proof.
  induction a as [|c a IH]; simpl.
  - intros _. by rewrite Ascii.eqb_refl.
  - intros [Hc Ha]%andb_true_iff. apply negb_true_iff in Hc.
    change (String.append a (String sep b)) with (a ++ String sep b)%string.
    by rewrite Hc, IH.
Qed.

Lemma string_app_empty (s : string) : (s ++ "")%string = s.
Proof.
  induction s as [|c s IH]; [done|].
  change (String c s ++ "")%string with (String c (s ++ ""))%string.
  by rewrite IH.
Qed.

(** The middleware takes the second space-separated piece of the header
    as the token: the first piece need not be [Bearer], and what follows
    a further space is ignored. *)
Theorem bearer_reads_second_piece
        (scheme token tail : string) (req : request) :
  no_space scheme = true ->
  no_space token = true ->
  tail = EmptyString \/ (exists t, tail = String " " t) ->
  headers_authorization req
  = Some (scheme ++ String " " (token ++ tail))%string ->
  bearer req = Some token.
Proof.
  intros Hscheme Htoken Htail Hheader. unfold bearer. rewrite Hheader.
  rewrite (split_app_sep " " scheme _ Hscheme).
  destruct Htail as [->|[t ->]].
  - rewrite string_app_empty.
    by rewrite (split_no_sep " " token Htoken).
  - by rewrite (split_app_sep " " token t Htoken).
Qed.

Lemma basic_scheme_and_trailing_words :
  let req :=
    {| headers_authorization := Some "Basic abc.def extra words";
       body := ∅; req_username := VUndef |} in
  no_space "Basic" = true /\ no_space "abc.def" = true
  /\ bearer req = Some "abc.def".
Proof.
  intros req. split; [reflexivity|]. split; [reflexivity|].
  apply (bearer_reads_second_piece "Basic" "abc.def" " extra words" req);
    [reflexivity|reflexivity|right; by eexists|reflexivity].
Defined.

Section Gate.

Context {bcrypt : Bcrypt} {jsonwebtoken : Jwt}.

(** A header that is the token alone, with no scheme word before it, is
    answered 401 on every route behind the middleware, whether or not the
    token is a good one, and nothing is written. *)
Theorem bare_token_is_missing
        (r : route) (req : request) (e : env) (st : fs) (header : string) :
  r ∈ app -> VerifyUser ∈ guards r ->
  headers_authorization req = Some header ->
  no_space header = true ->
  serve r req e st = (st, Responded (sendStatus 401)).
Proof.
  intros Hin Hguard Hheader Hns.
  destruct (guarded_routes r Hin Hguard) as [Hguards _].
  unfold serve. rewrite Hguards. simpl.
  unfold verifyUser, bearer. rewrite Hheader.
  by rewrite (split_no_sep " " header Hns).
Qed.

End Gate.

Lemma alice_token_without_scheme :
  let req :=
    {| headers_authorization := Some Sample.alice_token;
       body := {[ "content" := VStr "hi" ]}; req_username := VUndef |} in
  Plain.decode Sample.alice_token SECRET_KEY
  = Some {| claim_username := VStr "alice"; iat := 1000;
            exp := Some 4600%nat |}
  /\ serve (bcrypt := Plain.bcrypt) (jsonwebtoken := Plain.jsonwebtoken)
           Sample.create_post req (Plain.at_time 1000 8) Plain.empty_fs
     = (Plain.empty_fs, Responded (sendStatus 401)).
Proof.
  intros req. split; [reflexivity|].
  apply (bare_token_is_missing
           (bcrypt := Plain.bcrypt) (jsonwebtoken := Plain.jsonwebtoken)
           Sample.create_post req (Plain.at_time 1000 8) Plain.empty_fs
           Sample.alice_token).
  - unfold app. repeat constructor.
  - left.
  - reflexivity.
  - reflexivity.
Defined.

(** ** What every route keeps *)

Section Whole.

Context {bcrypt : Bcrypt} {jsonwebtoken : Jwt}.

(** The middlewares either end the request, leaving the files alone, or
    hand a request with the same header and body to the handler. *)
Lemma through_cases (ms : list middleware) (h : handler)
      (req : request) (e : env) (st : fs) :
  (exists refused, through ms h req e st = (st, Responded refused))
  \/ (exists req', through ms h req e st = call h req' e st
                   /\ body req' = body req
                   /\ headers_authorization req' = headers_authorization req).
Proof.
  revert req. induction ms as [|[] ms IH]; intros req; simpl.
  - right. by exists req.
  - destruct (verifyUser req (now e)) as [refused|req'] eqn:Hverify.
    + left. by exists refused.
    + assert (body req' = body req
              /\ headers_authorization req' = headers_authorization req)
        as [Hbody Hheader].
      { unfold verifyUser in Hverify.
        destruct (bearer req) as [[|c token]|]; try discriminate Hverify.
        destruct (jwt_verify _ _ _); [discriminate Hverify|].
        by injection Hverify as <-. }
      destruct (IH req') as [[refused Hr]|(req'' & Hr & Hb & Hh)].
      * left. by exists refused.
      * right. exists req''. split_and!; congruence.
Qed.

Lemma handleLogin_writes_nothing (req : request) (e : env) (st : fs) :
  fst (handleLogin req e st) = st.
Proof.
  unfold handleLogin. destruct (List.find _ _); [|done].
  destruct (prop "password" (body req)); try done.
  by destruct (bcrypt_compare _ _).
Qed.

Lemma call_users (h : handler) (req : request) (e : env) (st : fs) :
  let users := readDatabase (users_json st) in
  let users' := readDatabase (users_json (fst (call h req e st))) in
  (users' = users
   \/ exists hashed,
        h = HandleSignUp
        /\ List.find (fun user => strict_eq (User.username user)
                                           (prop "username" (body req)))
                     users = None
        /\ users' = users ++ [{| User.username := prop "username" (body req);
                                 User.password := hashed |}])
  /\ (h <> HandleSignUp -> users_json (fst (call h req e st)) = users_json st).
Proof.
  destruct h; simpl; try (split; [by left|done]).
  - split; [|done]. unfold handleSignUp.
    destruct (List.find _ _) eqn:Hfind; [by left|].
    destruct (prop "password" (body req)); try by left.
    right. eexists. by split_and!.
  - rewrite handleLogin_writes_nothing. split; [by left|done].
Qed.

Lemma call_posts (h : handler) (req : request) (e : env) (st : fs) :
  h <> HandleCreatePost -> h <> HandleRemovePost ->
  posts_json (fst (call h req e st)) = posts_json st.
Proof.
  destruct h; simpl; try done.
  - intros _ _. unfold handleSignUp.
    destruct (List.find _ _); [done|].
    by destruct (prop "password" (body req)).
  - intros _ _. by rewrite handleLogin_writes_nothing.
Qed.

(** Whatever route it is served on and whatever the request,
    [users.json] is written by [handleSignUp] alone and [posts.json] by
    [handleCreatePost] and [handleRemovePost] alone; and on a route with
    the middleware, a request the middleware refuses gets that refusal
    as its answer and leaves both files as they were. *)
Theorem each_file_has_its_writers
        (r : route) (req : request) (e : env) (st : fs) :
  let st' := fst (serve r req e st) in
  (endpoint r <> HandleSignUp -> users_json st' = users_json st)
  /\ (endpoint r <> HandleCreatePost -> endpoint r <> HandleRemovePost ->
      posts_json st' = posts_json st)
  /\ (forall refused,
        guards r <> [] -> verifyUser req (now e) = inl refused ->
        serve r req e st = (st, Responded refused))
  /\ (forall resp,
        VerifyUser ∈ guards r -> r ∈ app ->
        snd (serve r req e st) = Responded resp ->
        status resp = 401%nat \/ status resp = 403%nat ->
        st' = st).
Proof.
  unfold serve. simpl. split_and!.
  - destruct (through_cases (guards r) (endpoint r) req e st)
      as [[refused ->]|(req' & -> & _ & _)]; [done|].
    apply call_users.
  - destruct (through_cases (guards r) (endpoint r) req e st)
      as [[refused ->]|(req' & -> & _ & _)]; [done|].
    apply call_posts.
  - intros refused Hguards Hrefused.
    destruct (guards r) as [|[] rest]; [done|].
    simpl. by rewrite Hrefused.
  - intros resp Hguard Hin Hresp Hstatus.
    destruct (guarded_routes r Hin Hguard) as [Hguards Hhandler].
    rewrite Hguards in *. simpl in *.
    destruct (verifyUser req (now e)) as [refused|req']; [done|].
    apply Hhandler in Hresp. lia.
Qed.

Lemma handleSignUp_phases (req : request) (e : env) (st : fs) :
  handleSignUp req e st
  = match signUp_begin req st with
    | inl answer => (st, answer)
    | inr waiting => signUp_resume waiting e st
    end.
Proof.
  unfold handleSignUp, signUp_begin, signUp_resume.
  destruct (List.find _ _); [done|].
  by destruct (prop "password" (body req)).
Qed.

Lemma signUp_begin_new (u p : string) (st : fs) :
  (forall user, user ∈ readDatabase (users_json st) ->
                User.username user <> VStr u) ->
  signUp_begin (credentials u p) st
  = inr {| read_users := readDatabase (users_json st);
           new_username := VStr u;
           plain_password := p |}.
Proof.
  intros Hfresh. unfold signUp_begin.
  rewrite credentials_username, credentials_password.
  by rewrite (find_username_absent u _ Hfresh).
Qed.

(** A sign-up writes the array it read before awaiting the hash, with
    its record pushed. When two sign-ups of unused usernames read the
    same collection before either writes, both are answered 201 but the
    later write drops the record of the earlier, whose login is then
    answered 401; one after the other, both records stay. *)
Theorem overlapping_sign_ups_lose_a_record
        (a b pa pb : string) (ea eb e : env) (st : fs) :
  let users := readDatabase (users_json st) in
  let of_a :=
    {| User.username := VStr a;
       User.password := bcrypt_hash pa 10 (fresh_salt ea) |} in
  let of_b :=
    {| User.username := VStr b;
       User.password := bcrypt_hash pb 10 (fresh_salt eb) |} in
  (forall user, user ∈ users -> User.username user <> VStr a) ->
  (forall user, user ∈ users -> User.username user <> VStr b) ->
  a <> b ->
  exists for_a for_b,
    signUp_begin (credentials a pa) st = inr for_a
    /\ signUp_begin (credentials b pb) st = inr for_b
    /\ signUp_resume for_a ea st
       = ({| users_json := Some (users ++ [of_a]);
             posts_json := posts_json st |},
          json 201 (Message "User registered successfully"))
    /\ signUp_resume for_b eb (fst (signUp_resume for_a ea st))
       = ({| users_json := Some (users ++ [of_b]);
             posts_json := posts_json st |},
          json 201 (Message "User registered successfully"))
    /\ handleLogin (credentials a pa) e
                   (fst (signUp_resume for_b eb (fst (signUp_resume for_a ea st))))
       = (fst (signUp_resume for_b eb (fst (signUp_resume for_a ea st))),
          json 401 (Message "Invalid credentials"))
    /\ readDatabase
         (users_json (fst (handleSignUp (credentials b pb) eb
                             (fst (handleSignUp (credentials a pa) ea st)))))
       = users ++ [of_a; of_b].
Proof.
  intros users of_a of_b Ha Hb Hab.
  do 2 eexists. split; [by apply signUp_begin_new|].
  split; [by apply signUp_begin_new|]. split_and!; try reflexivity.
  - unfold handleLogin. rewrite credentials_username. simpl.
    rewrite (find_username_absent a); [done|].
    intros user [Hin|Hin%list_elem_of_singleton]%elem_of_app.
    + by apply Ha.
    + rewrite Hin. simpl. congruence.
  - rewrite (handleSignUp_new a pa ea st Ha). simpl.
    rewrite handleSignUp_new.
    + simpl. by rewrite <- app_assoc.
    + simpl. intros user [Hin|Hin%list_elem_of_singleton]%elem_of_app.
      * by apply Hb.
      * rewrite Hin. simpl. congruence.
Qed.

(** If no two accounts have the same string as username, no request,
    on any route and with any body, makes two of them have one. *)
Theorem usernames_stay_unique
        (r : route) (req : request) (e : env) (st : fs) :
  unique_strings (readDatabase (users_json st)) ->
  unique_strings (readDatabase (users_json (fst (serve r req e st)))).
Proof.
  intros Hunique. unfold serve.
  destruct (through_cases (guards r) (endpoint r) req e st)
    as [[refused ->]|(req' & -> & _ & _)]; [done|].
  destruct (call_users (endpoint r) req' e st)
    as [[->|(hashed & _ & Hfind & ->)] _]; [done|].
  rewrite find_none in Hfind.
  assert (Hnew : forall i a s,
             readDatabase (users_json st) !! i = Some a ->
             User.username a = VStr s ->
             prop "username" (body req') <> VStr s).
  { intros i a s Hi Ha Heq.
    specialize (Hfind a (list_elem_of_lookup_2 _ _ _ Hi)).
    rewrite Ha, Heq in Hfind. simpl in Hfind.
    by rewrite String.eqb_refl in Hfind. }
  intros i j a b s Hi Hj Ha Hb.
  apply lookup_app_Some in Hi as [Hi|[Hi Hi']];
    apply lookup_app_Some in Hj as [Hj|[Hj Hj']].
  - by eapply Hunique.
  - apply list_lookup_singleton_Some in Hj' as [_ <-]. simpl in Hb.
    by destruct (Hnew i a s Hi Ha).
  - apply list_lookup_singleton_Some in Hi' as [_ <-]. simpl in Ha.
    by destruct (Hnew j b s Hj Hb).
  - apply list_lookup_singleton_Some in Hi' as [Hi' _].
    apply list_lookup_singleton_Some in Hj' as [Hj' _]. lia.
Qed.

(** No request edits a post: a post found in the collection afterwards
    was there before, or it is the one [handleCreatePost] has just
    appended with the id count + 1. *)
Theorem posts_are_never_edited
        (r : route) (req : request) (e : env) (st : fs) (p : Post.t) :
  let posts := readDatabase (posts_json st) in
  let posts' := readDatabase (posts_json (fst (serve r req e st))) in
  p ∈ posts' ->
  p ∈ posts
  \/ (endpoint r = HandleCreatePost
      /\ posts' = posts ++ [p]
      /\ Post.id p = Z.of_nat (List.length posts) + 1).
Proof.
  unfold serve. simpl.
  destruct (through_cases (guards r) (endpoint r) req e st)
    as [[refused ->]|(req' & -> & _ & _)]; [by left|].
  destruct (endpoint r) eqn:Hh;
    try (rewrite call_posts by done; by left); simpl.
  - intros [Hold|Hnew%list_elem_of_singleton]%elem_of_app; [by left|].
    right. by rewrite Hnew.
  - intros Hin%list_elem_of_In%filter_In.
    left. apply list_elem_of_In. tauto.
Qed.

(** The three routes without the middleware read the body alone: the
    Authorization header changes neither what is answered nor what is
    written. *)
Theorem public_routes_ignore_the_header
        (r : route) (req req' : request) (e : env) (st : fs) :
  r ∈ app -> VerifyUser ∉ guards r ->
  body req = body req' ->
  serve r req e st = serve r req' e st.
Proof.
  unfold app. intros Hin Hguard Hbody.
  repeat (apply elem_of_cons in Hin as [->|Hin]);
    try (by apply elem_of_nil in Hin);
    try (exfalso; apply Hguard; simpl; by left);
    unfold serve; simpl.
  - unfold handleSignUp. by rewrite Hbody.
  - unfold handleLogin. by rewrite Hbody.
  - reflexivity.
Qed.

End Whole.

(** ** Accounts, beyond string credentials *)

Lemma strict_eq_reference (a b : value) :
  is_reference b = true -> strict_eq a b = false.
Proof. by destruct a, b. Qed.

Lemma find_app_Some {A : Type} (f : A -> bool) (l more : list A) (x : A) :
  List.find f l = Some x -> List.find f (l ++ more) = Some x.
Proof.
  intros (before & rest & -> & Hx & Hbefore)%find_first.
  apply find_first. exists before, (rest ++ more).
  by rewrite <- app_assoc.
Qed.

Section Credentials.

Context {bcrypt : Bcrypt} {jsonwebtoken : Jwt}.

(** What a login answered 200 went through. *)
Lemma handleLogin_ok_inv (req : request) (e : env) (st : fs) (resp : response) :
  snd (handleLogin req e st) = Responded resp ->
  status resp = 200%nat ->
  exists user plain,
    List.find (fun user => strict_eq (User.username user)
                                     (prop "username" (body req)))
              (readDatabase (users_json st)) = Some user
    /\ prop "password" (body req) = VStr plain
    /\ bcrypt_compare plain (User.password user) = true
    /\ sent resp
       = Token (jwt_sign (prop "username" (body req)) SECRET_KEY ONE_HOUR (now e)).
Proof.
  unfold handleLogin, json.
  destruct (List.find _ _) as [user|] eqn:Hfind; simpl.
  - destruct (prop "password" (body req)) as [| | | |plain| |] eqn:Hpw;
      simpl; try discriminate.
    destruct (bcrypt_compare plain _) eqn:Hcmp; simpl.
    + intros [= <-] _. by exists user, plain.
    + intros [= <-]. simpl. discriminate.
  - intros [= <-]. simpl. discriminate.
Qed.

Lemma handleLogin_ok (req : request) (e : env) (st : fs)
      (user : User.t) (plain : string) :
  List.find (fun user => strict_eq (User.username user)
                                   (prop "username" (body req)))
            (readDatabase (users_json st)) = Some user ->
  prop "password" (body req) = VStr plain ->
  bcrypt_compare plain (User.password user) = true ->
  handleLogin req e st
  = (st, json 200 (Token (jwt_sign (prop "username" (body req))
                                   SECRET_KEY ONE_HOUR (now e)))).
Proof. intros Hfind Hpw Hcmp. unfold handleLogin. by rewrite Hfind, Hpw, Hcmp. Qed.

(** A token is only ever issued for the username of a stored record
    whose hash [bcrypt.compare] accepted against the password sent: a
    login answered 200 implies such a record, and the token is the one
    signed for the username in the body, for one hour from now. *)
Theorem token_only_for_a_matching_record
        (req : request) (e : env) (st : fs) (resp : response) :
  snd (handleLogin req e st) = Responded resp ->
  status resp = 200%nat ->
  exists user plain,
    user ∈ readDatabase (users_json st)
    /\ strict_eq (User.username user) (prop "username" (body req)) = true
    /\ prop "password" (body req) = VStr plain
    /\ bcrypt_compare plain (User.password user) = true
    /\ sent resp
       = Token (jwt_sign (prop "username" (body req)) SECRET_KEY ONE_HOUR (now e)).
Proof.
  intros Hresp Hok.
  destruct (handleLogin_ok_inv req e st resp Hresp Hok)
    as (user & plain & Hfind & Hpw & Hcmp & Hsent).
  exists user, plain. split_and!; try done.
  - apply find_first in Hfind as (before & rest & -> & _ & _).
    apply elem_of_app. right. left.
  - by apply find_first in Hfind as (before & rest & _ & Hx & _).
Qed.

Lemma signUp_begin_read (req : request) (st : fs) (waiting : pending) :
  signUp_begin req st = inr waiting ->
  read_users waiting = readDatabase (users_json st).
Proof.
  unfold signUp_begin. destruct (List.find _ _); [discriminate|].
  destruct (prop "password" (body req)); try discriminate.
  by intros [= <-].
Qed.

(** A login that succeeds on a store succeeds, with the same answer, on
    the store left by any request to a handler other than
    [handleSignUp], and on the store a sign-up writes, whenever it
    writes, if that sign-up read the store the login succeeded on: its
    record is pushed after the ones read. So it does after a sign-up
    that runs from its read to its write with no other write between. *)
Theorem logins_survive_what_a_sign_up_read
        (req : request) (e : env) (st : fs) (token : string) :
  handleLogin req e st = (st, json 200 (Token token)) ->
  (forall (r : route) (other : request) (e' : env),
      endpoint r <> HandleSignUp ->
      handleLogin req e (fst (serve r other e' st))
      = (fst (serve r other e' st), json 200 (Token token)))
  /\ (forall (other : request) (waiting : pending) (e' : env) (later : fs),
        signUp_begin other st = inr waiting ->
        handleLogin req e (fst (signUp_resume waiting e' later))
        = (fst (signUp_resume waiting e' later), json 200 (Token token)))
  /\ (forall (other : request) (e' : env),
        handleLogin req e (fst (handleSignUp other e' st))
        = (fst (handleSignUp other e' st), json 200 (Token token))).
Proof.
  intros Hlogin.
  assert (Hsnd : snd (handleLogin req e st)
                 = Responded {| status := 200; sent := Token token |})
    by by rewrite Hlogin.
  destruct (handleLogin_ok_inv req e st _ Hsnd eq_refl)
    as (user & plain & Hfind & Hpw & Hcmp & Hsent).
  simpl in Hsent. injection Hsent as ->.
  assert (Hresume : forall other waiting e' later,
             signUp_begin other st = inr waiting ->
             handleLogin req e (fst (signUp_resume waiting e' later))
             = (fst (signUp_resume waiting e' later),
                json 200 (Token (jwt_sign (prop "username" (body req))
                                          SECRET_KEY ONE_HOUR (now e))))).
  { intros other waiting e' later Hbegin.
    apply (handleLogin_ok req e _ user plain); [|done..].
    simpl. rewrite (signUp_begin_read other st waiting Hbegin).
    by apply find_app_Some. }
  split_and!.
  - intros r other e' Hother.
    apply (handleLogin_ok req e _ user plain); [|done..].
    unfold serve.
    destruct (through_cases (guards r) (endpoint r) other e' st)
      as [[refused ->]|(req' & -> & _ & _)]; [done|].
    destruct (call_users (endpoint r) req' e' st) as [_ Hsame].
    by rewrite (Hsame Hother).
  - exact Hresume.
  - intros other e'. rewrite handleSignUp_phases.
    destruct (signUp_begin other st) as [answer|waiting] eqn:Hbegin.
    + simpl. by apply (handleLogin_ok req e st user plain).
    + by apply (Hresume other).
Qed.

(** A username that is an array or an object equals no stored username:
    with a string password its sign-up always appends one more record
    and answers 201, and a login with it is answered 401, before and
    after. *)
Theorem reference_usernames_never_match
        (req : request) (e e' : env) (st : fs) (plain : string) :
  is_reference (prop "username" (body req)) = true ->
  prop "password" (body req) = VStr plain ->
  let st1 := fst (handleSignUp req e st) in
  handleSignUp req e st
  = ({| users_json :=
          Some (readDatabase (users_json st) ++
                  [{| User.username := prop "username" (body req);
                      User.password := bcrypt_hash plain 10 (fresh_salt e) |}]);
        posts_json := posts_json st |},
     json 201 (Message "User registered successfully"))
  /\ snd (handleSignUp req e' st1)
     = json 201 (Message "User registered successfully")
  /\ handleLogin req e' st1
     = (st1, json 401 (Message "Invalid credentials")).
Proof.
  intros Href Hpw.
  assert (Hnone : forall users : list User.t,
             List.find (fun user => strict_eq (User.username user)
                                              (prop "username" (body req)))
                       users = None).
  { intros users. apply find_none. intros y _.
    by apply strict_eq_reference. }
  intros st1. subst st1. unfold handleSignUp, handleLogin.
  by rewrite !Hnone, Hpw.
Qed.

(** [bcrypt.compare] rejecting data that is not a string, a login whose
    password is not a string is answered 401 when no record has the
    username, but when one has, the promise of the handler rejects and
    the handler sends nothing: the two cases can be told apart. *)
Theorem login_without_a_string_password
        (u : string) (req : request) (e : env) (st : fs) :
  prop "username" (body req) = VStr u ->
  (forall plain, prop "password" (body req) <> VStr plain) ->
  ((forall user, user ∈ readDatabase (users_json st) ->
                 User.username user <> VStr u) ->
     handleLogin req e st = (st, json 401 (Message "Invalid credentials")))
  /\ ((exists user, user ∈ readDatabase (users_json st)
                    /\ User.username user = VStr u) ->
      handleLogin req e st = (st, Rejected)).
Proof.
  intros Hu Hpw. unfold handleLogin. rewrite Hu. split.
  - intros ->%find_username_absent. reflexivity.
  - intros [found ->]%find_username_present.
    destruct (prop "password" (body req)) as [| | | |plain| |] eqn:Hp;
      try reflexivity.
    by destruct (Hpw plain).
Qed.

(** [bcrypt.hash] rejecting data that is not a string, a sign-up whose
    password is not a string writes nothing: it is answered 400 when a
    record has the username sent; when none has, the promise of the
    handler rejects before the record is pushed, and the handler sends
    nothing. *)
Theorem sign_up_without_a_string_password
        (req : request) (e : env) (st : fs) :
  (forall plain, prop "password" (body req) <> VStr plain) ->
  let taken (user : User.t) :=
    strict_eq (User.username user) (prop "username" (body req)) = true in
  fst (handleSignUp req e st) = st
  /\ ((exists user, user ∈ readDatabase (users_json st) /\ taken user) ->
      handleSignUp req e st = (st, json 400 (Message "User already exists")))
  /\ ((forall user, user ∈ readDatabase (users_json st) -> ~ taken user) ->
      handleSignUp req e st = (st, Rejected)).
Proof.
  intros Hpw taken. unfold handleSignUp.
  destruct (List.find _ _) as [found|] eqn:Hfind.
  - split_and!; [done..|].
    intros Hnone. apply find_first in Hfind as (before & rest & Hsplit & Hx & _).
    destruct (Hnone found); [|done].
    rewrite Hsplit. apply elem_of_app. right. left.
  - rewrite find_none in Hfind.
    assert (Hrej : match prop "password" (body req) with
                   | VStr plain =>
                       (write_users st
                          (readDatabase (users_json st) ++
                           [{| User.username := prop "username" (body req);
                               User.password :=
                                 bcrypt_hash plain 10 (fresh_salt e) |}]),
                        json 201 (Message "User registered successfully"))
                   | _ => (st, Rejected)
                   end = (st, Rejected)).
    { destruct (prop "password" (body req)) as [| | | |plain| |] eqn:Hp;
        try reflexivity.
      by destruct (Hpw plain). }
    rewrite Hrej. split_and!; [done| |done].
    intros (user & Hin & Htaken). unfold taken in Htaken.
    by rewrite (Hfind user Hin) in Htaken.
Qed.

(** [/accounts] sends every stored record as it is: whoever presents a
    token that verifies gets, for an account registered just before, the
    very hash [bcrypt.hash] made of its password. *)
Theorem accounts_sends_the_stored_hashes
        (u p : string) (e0 e : env) (st : fs)
        (req : request) (token : string) (decoded : claims) :
  (forall user, user ∈ readDatabase (users_json st) ->
                User.username user <> VStr u) ->
  bearer req = Some token -> token <> EmptyString ->
  jwt_verify token SECRET_KEY (now e) = inr decoded ->
  let st1 := fst (handleSignUp (credentials u p) e0 st) in
  serve Routes.accounts req e st1
  = (st1,
     json 200
       (Users (readDatabase (users_json st) ++
                 [{| User.username := VStr u;
                     User.password := bcrypt_hash p 10 (fresh_salt e0) |}]))).
Proof.
  intros Hfresh Hbearer Hne Hverify st1. subst st1.
  rewrite (handleSignUp_new u p e0 st Hfresh).
  unfold serve. simpl.
  by rewrite (verifyUser_accepts req token (now e) decoded).
Qed.

End Credentials.

(** ** Post ids over several requests *)

Lemma handleRemovePost_filter (i : Z) (req : request) (st : fs) :
  prop "postId" (body req) = VNum i ->
  readDatabase (posts_json (fst (handleRemovePost req st)))
  = filter (fun p => Post.id p <> i) (readDatabase (posts_json st)).
Proof.
  intros HpostId. unfold handleRemovePost. simpl. rewrite HpostId.
  apply filter_callback. intros p. rewrite strict_neq_num.
  split; intros Hne; congruence.
Qed.

Lemma numbered_snoc (posts : list Post.t) (p : Post.t) :
  numbered posts ->
  Post.id p = Z.of_nat (List.length posts) + 1 ->
  numbered (posts ++ [p]).
Proof.
  unfold numbered. intros Hposts Hid.
  rewrite fmap_app, length_app, Hposts. simpl.
  rewrite Nat.add_1_r, seq_S, fmap_app. simpl.
  do 2 f_equal. rewrite Hid. lia.
Qed.

Lemma numbered_NoDup (posts : list Post.t) :
  numbered posts -> NoDup (Post.id <$> posts).
Proof.
  unfold numbered. intros ->.
  apply NoDup_fmap_2_strong; [|apply NoDup_seq].
  intros x y _ _ Heq. lia.
Qed.

(** Creating posts one after the other, with no removal between them,
    keeps the ids 1, 2, ..., count: they stay distinct. *)
Theorem creates_keep_the_numbering (reqs : list request) (st : fs) :
  numbered (readDatabase (posts_json st)) ->
  let posts' := readDatabase (posts_json (creates reqs st)) in
  numbered posts'
  /\ List.length posts'
     = (List.length (readDatabase (posts_json st)) + List.length reqs)%nat
  /\ NoDup (Post.id <$> posts').
Proof.
  intros Hst posts'.
  assert (Hboth : numbered posts'
                  /\ List.length posts'
                     = (List.length (readDatabase (posts_json st))
                        + List.length reqs)%nat).
  { subst posts'. revert st Hst.
    induction reqs as [|req reqs IH]; intros st Hst.
    - split; [done|simpl; lia].
    - change (creates (req :: reqs) st)
        with (creates reqs (fst (handleCreatePost req st))).
      destruct (IH (fst (handleCreatePost req st))) as [Hnum Hlen].
      + simpl. by apply numbered_snoc.
      + split; [exact Hnum|]. rewrite Hlen. simpl.
        rewrite length_app. simpl. lia. }
  destruct Hboth as [Hnum Hlen]. split_and!; [done..|].
  by apply numbered_NoDup.
Qed.

Lemma create_twice_from_nothing :
  let hi := Sample.as_user "bob" {[ "content" := VStr "hi" ]} in
  let yo := Sample.as_user "carol" {[ "content" := VStr "yo" ]} in
  numbered (readDatabase (posts_json Plain.empty_fs))
  /\ Post.id <$> readDatabase (posts_json (creates [hi; yo] Plain.empty_fs))
     = [1; 2].
Proof.
  intros hi yo. split; [reflexivity|].
  destruct (creates_keep_the_numbering [hi; yo] Plain.empty_fs eq_refl)
    as (Hnum & _ & _).
  exact Hnum.
Defined.

Lemma filter_one_out (posts : list Post.t) (p : Post.t) :
  NoDup (Post.id <$> posts) -> p ∈ posts ->
  (List.length (filter (fun q => Post.id q <> Post.id p) posts) + 1)%nat
  = List.length posts.
Proof.
  induction posts as [|x posts IH]; intros Hnodup Hin.
  - by apply elem_of_nil in Hin.
  - rewrite fmap_cons in Hnodup. apply NoDup_cons in Hnodup as [Hx Hnodup].
    rewrite filter_cons. apply elem_of_cons in Hin as [->|Hin].
    + rewrite decide_False by (intros Hne; by apply Hne).
      rewrite filter_all; [simpl; lia|].
      intros q Hq Heq. apply Hx. rewrite <- Heq.
      by apply list_elem_of_fmap_2.
    + rewrite decide_True.
      * simpl. rewrite <- (IH Hnodup Hin). lia.
      * intros Heq. apply Hx. rewrite Heq. by apply list_elem_of_fmap_2.
Qed.

(** Ids are reused after a removal. In a collection with distinct ids
    whose count is the id of some post [q], removing another post and
    then creating one gives the new post the id of [q]; the ids are no
    longer distinct, and removing by that id then takes both. *)
Theorem ids_collide_after_a_removal
        (p q : Post.t) (remove create again : request) (st : fs) :
  let posts := readDatabase (posts_json st) in
  NoDup (Post.id <$> posts) ->
  p ∈ posts -> q ∈ posts ->
  Post.id q = Z.of_nat (List.length posts) ->
  Post.id p <> Post.id q ->
  prop "postId" (body remove) = VNum (Post.id p) ->
  prop "postId" (body again) = VNum (Post.id q) ->
  let st1 := fst (handleRemovePost remove st) in
  let st2 := fst (handleCreatePost create st1) in
  let st3 := fst (handleRemovePost again st2) in
  exists created,
    snd (handleCreatePost create st1) = json 201 (OnePost created)
    /\ Post.id created = Post.id q
    /\ readDatabase (posts_json st2)
       = filter (fun x => Post.id x <> Post.id p) posts ++ [created]
    /\ q ∈ filter (fun x => Post.id x <> Post.id p) posts
    /\ (~ NoDup (Post.id <$> readDatabase (posts_json st2)))
    /\ (q ∉ readDatabase (posts_json st3))
    /\ (created ∉ readDatabase (posts_json st3)).
Proof.
  intros posts Hnodup Hp Hq Hlast Hne Hremove Hagain st1 st2 st3.
  pose proof (handleRemovePost_filter _ remove st Hremove) as Hst1.
  fold posts st1 in Hst1.
  pose proof (filter_one_out posts p Hnodup Hp) as Hlen.
  assert (Hkept : q ∈ filter (fun x => Post.id x <> Post.id p) posts).
  { apply list_elem_of_filter. split; [congruence|done]. }
  eexists. split; [reflexivity|].
  assert (Hid : Z.of_nat (List.length (readDatabase (posts_json st1))) + 1
                = Post.id q).
  { rewrite Hst1, Hlast. lia. }
  assert (Hst2 : readDatabase (posts_json st2)
                 = filter (fun x => Post.id x <> Post.id p) posts
                   ++ [{| Post.id := Z.of_nat (List.length
                                        (readDatabase (posts_json st1))) + 1;
                          Post.username := req_username create;
                          Post.content := prop "content" (body create) |}]).
  { rewrite <- Hst1. reflexivity. }
  pose proof (handleRemovePost_filter _ again st2 Hagain) as Hst3.
  fold st3 in Hst3.
  split_and!; try done.
  - rewrite Hst2, fmap_app. intros (_ & Hdisjoint & _)%NoDup_app.
    apply (Hdisjoint (Post.id q)).
    + by apply list_elem_of_fmap_2.
    + eapply list_elem_of_fmap_2'; [left|]. exact (eq_sym Hid).
  - rewrite Hst3, list_elem_of_filter. intros [Hneq _]. by apply Hneq.
  - rewrite Hst3, list_elem_of_filter. intros [Hneq _]. apply Hneq.
    exact Hid.
Qed.

Lemma third_id_given_twice :
  let remove := post_json {[ "postId" := VNum 1 ]} in
  let create := Sample.as_user "carol" {[ "content" := VStr "yo" ]} in
  let st2 :=
    fst (handleCreatePost create (fst (handleRemovePost remove Sample.three_posts))) in
  NoDup (Post.id <$> readDatabase (posts_json Sample.three_posts))
  /\ Post.id <$> readDatabase (posts_json st2) = [2; 3; 3].
Proof.
  intros remove create st2.
  assert (Hnodup : NoDup (Post.id <$> readDatabase (posts_json Sample.three_posts))).
  { simpl. repeat (apply NoDup_cons; split;
                   [intros Hin; repeat (apply elem_of_cons in Hin as [Hin|Hin];
                                        [discriminate Hin|]);
                    by apply elem_of_nil in Hin|]).
    apply NoDup_nil. done. }
  split; [exact Hnodup|].
  destruct (ids_collide_after_a_removal
              Sample.bob_1 Sample.bob_3 remove create
              (post_json {[ "postId" := VNum 3 ]}) Sample.three_posts)
    as (created & _ & _ & Hst2 & _).
  - exact Hnodup.
  - left.
  - right. right. left.
  - reflexivity.
  - discriminate.
  - reflexivity.
  - reflexivity.
  - reflexivity.
Defined.

(** ** Creating, removing and listing *)

(** Removing a post by the id it was just given restores the collection,
    provided no older post has that id. *)
Theorem remove_undoes_create (create remove : request) (st : fs) :
  let posts := readDatabase (posts_json st) in
  let fresh := Z.of_nat (List.length posts) + 1 in
  (forall p, p ∈ posts -> Post.id p <> fresh) ->
  prop "postId" (body remove) = VNum fresh ->
  posts_json (fst (handleRemovePost remove (fst (handleCreatePost create st))))
  = Some posts.
Proof.
  intros posts fresh Hfresh Hremove.
  pose proof (handleRemovePost_filter fresh remove
                (fst (handleCreatePost create st)) Hremove) as Hafter.
  change (posts_json (fst (handleRemovePost remove (fst (handleCreatePost create st)))))
    with (Some (readDatabase (posts_json
                  (fst (handleRemovePost remove (fst (handleCreatePost create st))))))).
  f_equal. rewrite Hafter. simpl. fold posts.
  rewrite filter_app, filter_all by done.
  rewrite filter_cons, decide_False; [by rewrite app_nil_r|].
  intros Hne. by apply Hne.
Qed.

Lemma create_then_remove_fourth :
  let create := Sample.as_user "carol" {[ "content" := VStr "yo" ]} in
  let remove := post_json {[ "postId" := VNum 4 ]} in
  prop "postId" (body remove) = VNum 4
  /\ posts_json (fst (handleRemovePost remove
                        (fst (handleCreatePost create Sample.three_posts))))
     = posts_json Sample.three_posts.
Proof.
  intros create remove. split; [reflexivity|].
  apply (remove_undoes_create create remove Sample.three_posts);
    [|reflexivity].
  intros p Hin. simpl in Hin.
  repeat (apply elem_of_cons in Hin as [->|Hin]; [discriminate|]).
  by apply elem_of_nil in Hin.
Defined.

Lemma List_filter_comm {A : Type} (f g : A -> bool) (l : list A) :
  List.filter f (List.filter g l) = List.filter g (List.filter f l).
Proof.
  induction l as [|x l IH]; [done|]. simpl.
  destruct (f x) eqn:Hf, (g x) eqn:Hg; simpl; rewrite ?Hf, ?Hg, IH; done.
Qed.

Lemma List_filter_twice {A : Type} (f : A -> bool) (l : list A) :
  List.filter f (List.filter f l) = List.filter f l.
Proof.
  induction l as [|x l IH]; [done|]. simpl.
  destruct (f x) eqn:Hf; simpl; rewrite ?Hf, IH; done.
Qed.

(** Two removals leave the same files in either order, and a removal
    repeated changes nothing more, whatever the postIds are. *)
Theorem removals_commute (a b : request) (st : fs) :
  fst (handleRemovePost b (fst (handleRemovePost a st)))
  = fst (handleRemovePost a (fst (handleRemovePost b st)))
  /\ fst (handleRemovePost a (fst (handleRemovePost a st)))
     = fst (handleRemovePost a st).
Proof.
  unfold handleRemovePost, write_posts, writeDatabase. simpl. split.
  - f_equal. f_equal. apply List_filter_comm.
  - f_equal. f_equal. apply List_filter_twice.
Qed.

Section Owners.

Context {bcrypt : Bcrypt} {jsonwebtoken : Jwt}.

(** [/removePost] does not look at who asks: with any token that
    verifies, whatever username it carries, the post with the id sent is
    gone afterwards, and the outcome is the one for any other username. *)
Theorem anyone_can_remove_any_post
        (req : request) (e : env) (st : fs)
        (token : string) (decoded : claims) (p : Post.t) (anyone : value) :
  bearer req = Some token -> token <> EmptyString ->
  jwt_verify token SECRET_KEY (now e) = inr decoded ->
  prop "postId" (body req) = VNum (Post.id p) ->
  serve Routes.remove_post req e st
  = handleRemovePost (passed_on req anyone) st
  /\ snd (serve Routes.remove_post req e st) = send "Post removed"
  /\ (p ∉ readDatabase (posts_json (fst (serve Routes.remove_post req e st)))).
Proof.
  intros Hbearer Hne Hverify HpostId.
  assert (Hserve : serve Routes.remove_post req e st
                   = handleRemovePost (passed_on req anyone) st).
  { unfold serve. simpl.
    by rewrite (verifyUser_accepts req token (now e) decoded). }
  rewrite Hserve. split_and!; [done..|].
  rewrite (handleRemovePost_filter (Post.id p)) by done.
  rewrite list_elem_of_filter. intros [Hneq _]. by apply Hneq.
Qed.

(** The owner of a new post is the username of the token, and its id the
    count plus one: a [username] or an [id] in the body of [/createPost]
    has no effect. *)
Theorem owner_comes_from_the_token
        (req req' : request) (e : env) (st : fs)
        (token : string) (decoded : claims) :
  bearer req = Some token -> token <> EmptyString ->
  jwt_verify token SECRET_KEY (now e) = inr decoded ->
  headers_authorization req' = headers_authorization req ->
  prop "content" (body req') = prop "content" (body req) ->
  let created :=
    {| Post.id := Z.of_nat (List.length (readDatabase (posts_json st))) + 1;
       Post.username := claim_username decoded;
       Post.content := prop "content" (body req) |} in
  serve Sample.create_post req e st
  = ({| users_json := users_json st;
        posts_json := Some (readDatabase (posts_json st) ++ [created]) |},
     json 201 (OnePost created))
  /\ serve Sample.create_post req' e st = serve Sample.create_post req e st.
Proof.
  intros Hbearer Hne Hverify Hheader Hcontent created.
  assert (Hbearer' : bearer req' = Some token).
  { unfold bearer in *. by rewrite Hheader. }
  unfold serve. simpl.
  rewrite (verifyUser_accepts req token (now e) decoded) by done.
  rewrite (verifyUser_accepts req' token (now e) decoded) by done.
  unfold handleCreatePost. simpl. by rewrite Hcontent.
Qed.

End Owners.

(** A post created for a string username is, from then on, the last of
    the posts listed for that username; the lists of the other usernames
    are as before. *)
Theorem created_post_is_listed
        (owner : string) (req : request) (other : request) (st : fs) :
  req_username req = VStr owner ->
  req_username other <> VStr owner ->
  let st1 := fst (handleCreatePost req st) in
  exists mine created,
    snd (fetchUserPosts req st) = json 200 (Posts mine)
    /\ snd (handleCreatePost req st) = json 201 (OnePost created)
    /\ snd (fetchUserPosts req st1) = json 200 (Posts (mine ++ [created]))
    /\ snd (fetchUserPosts other st1) = snd (fetchUserPosts other st).
Proof.
  intros Howner Hother st1.
  do 2 eexists. split; [reflexivity|]. split; [reflexivity|].
  subst st1. unfold fetchUserPosts, handleCreatePost. simpl.
  rewrite !List.filter_app. simpl. rewrite Howner. simpl.
  rewrite String.eqb_refl. split; [done|].
  destruct (strict_eq (VStr owner) (req_username other)) eqn:Heq.
  - destruct (req_username other) as [| | | |s| |]; simpl in Heq;
      try discriminate Heq.
    apply String.eqb_eq in Heq as ->. by destruct Hother.
  - unfold strict_eq in Heq. rewrite Heq. by rewrite app_nil_r.
Qed.

Lemma carol_posts_and_bob_is_unaffected :
  let carol := Sample.as_user "carol" {[ "content" := VStr "new" ]} in
  let bob := Sample.as_user "bob" ∅ in
  let st1 := fst (handleCreatePost carol Sample.three_posts) in
  req_username carol = VStr "carol"
  /\ req_username bob <> VStr "carol"
  /\ snd (fetchUserPosts carol st1)
     = json 200 (Posts [Sample.carol_2;
                        {| Post.id := 4; Post.username := VStr "carol";
                           Post.content := VStr "new" |}])
  /\ snd (fetchUserPosts bob st1)
     = json 200 (Posts [Sample.bob_1; Sample.bob_3]).
Proof.
  intros carol bob st1. split; [reflexivity|]. split; [discriminate|].
  destruct (created_post_is_listed "carol" carol bob Sample.three_posts)
    as (mine & created & Hmine & Hcreated & Hlisted & Hbob);
    [reflexivity|discriminate|].
  split; [reflexivity|].
  etrans; [exact Hbob|reflexivity].
Defined.

(** ** Further runs on the sample data *)

Lemma bob_joins_alice :
  let st' :=
    fst (serve (bcrypt := Plain.bcrypt) (jsonwebtoken := Plain.jsonwebtoken) Routes.register (credentials "bob" "pw")
               (Plain.at_time 1000 9) Sample.alice_registered) in
  unique_strings (readDatabase (users_json Sample.alice_registered))
  /\ unique_strings (readDatabase (users_json st'))
  /\ List.length (readDatabase (users_json st')) = 2%nat.
Proof.
  intros st'.
  assert (Hbefore : unique_strings (readDatabase (users_json Sample.alice_registered))).
  { intros i j a b s [-> _]%list_lookup_singleton_Some
           [-> _]%list_lookup_singleton_Some _ _. reflexivity. }
  split; [exact Hbefore|]. split; [|reflexivity].
  apply (usernames_stay_unique (bcrypt := Plain.bcrypt) (jsonwebtoken := Plain.jsonwebtoken) Routes.register (credentials "bob" "pw")
           (Plain.at_time 1000 9) Sample.alice_registered Hbefore).
Defined.

Lemma alice_adds_a_fourth_post :
  let req := with_bearer Sample.alice_token (post_json {[ "content" := VStr "hi" ]}) in
  let fourth :=
    {| Post.id := 4; Post.username := VStr "alice"; Post.content := VStr "hi" |} in
  let posts' :=
    readDatabase (posts_json (fst (serve (bcrypt := Plain.bcrypt) (jsonwebtoken := Plain.jsonwebtoken) Sample.create_post req
                                         (Plain.at_time 1000 9) Sample.three_posts))) in
  fourth ∈ posts'
  /\ (fourth ∈ readDatabase (posts_json Sample.three_posts)
      \/ (endpoint Sample.create_post = HandleCreatePost
          /\ posts' = readDatabase (posts_json Sample.three_posts) ++ [fourth]
          /\ Post.id fourth
             = Z.of_nat (List.length (readDatabase (posts_json Sample.three_posts))) + 1)).
Proof.
  intros req fourth posts'.
  assert (Hin : fourth ∈ posts') by (do 3 right; left).
  split; [exact Hin|].
  exact (posts_are_never_edited (bcrypt := Plain.bcrypt) (jsonwebtoken := Plain.jsonwebtoken) Sample.create_post req
           (Plain.at_time 1000 9) Sample.three_posts fourth Hin).
Defined.

Lemma posts_with_any_header :
  let plain := post_json ∅ in
  let odd := with_bearer "garbage" (post_json ∅) in
  Routes.posts ∈ app
  /\ (VerifyUser ∉ guards Routes.posts)
  /\ body plain = body odd
  /\ serve (bcrypt := Plain.bcrypt) (jsonwebtoken := Plain.jsonwebtoken) Routes.posts odd (Plain.at_time 1000 9) Sample.three_posts
     = (Sample.three_posts,
        json 200 (Posts [Sample.bob_1; Sample.carol_2; Sample.bob_3])).
Proof.
  intros plain odd.
  assert (Hroute : Routes.posts ∈ app) by (unfold app; repeat constructor).
  assert (Hguard : VerifyUser ∉ guards Routes.posts)
    by (intros Hin; by apply elem_of_nil in Hin).
  split; [exact Hroute|]. split; [exact Hguard|]. split; [reflexivity|].
  rewrite <- (public_routes_ignore_the_header (bcrypt := Plain.bcrypt) (jsonwebtoken := Plain.jsonwebtoken) Routes.posts plain odd
                (Plain.at_time 1000 9) Sample.three_posts Hroute Hguard eq_refl).
  reflexivity.
Defined.

Lemma alice_token_has_a_record :
  let resp := {| status := 200; sent := Token Sample.alice_token |} in
  snd (handleLogin (bcrypt := Plain.bcrypt) (jsonwebtoken := Plain.jsonwebtoken) (credentials "alice" "pw") (Plain.at_time 1000 9)
                   Sample.alice_registered) = Responded resp
  /\ status resp = 200%nat
  /\ exists user plain,
      user ∈ readDatabase (users_json Sample.alice_registered)
      /\ strict_eq (User.username user) (VStr "alice") = true
      /\ VStr "pw" = VStr plain
      /\ bcrypt_compare (Bcrypt := Plain.bcrypt) plain (User.password user) = true
      /\ sent resp = Token Sample.alice_token.
Proof.
  intros resp. split; [reflexivity|]. split; [reflexivity|].
  exact (token_only_for_a_matching_record (bcrypt := Plain.bcrypt) (jsonwebtoken := Plain.jsonwebtoken) (credentials "alice" "pw")
           (Plain.at_time 1000 9) Sample.alice_registered resp eq_refl eq_refl).
Defined.

Lemma alice_still_logs_in_after_bob :
  let bob := credentials "bob" "pw" in
  let e := Plain.at_time 1000 9 in
  let st' := fst (handleSignUp (bcrypt := Plain.bcrypt) bob e Sample.alice_registered) in
  handleLogin (bcrypt := Plain.bcrypt) (jsonwebtoken := Plain.jsonwebtoken) (credentials "alice" "pw") e Sample.alice_registered
  = (Sample.alice_registered, json 200 (Token Sample.alice_token))
  /\ List.length (readDatabase (users_json st')) = 2%nat
  /\ handleLogin (bcrypt := Plain.bcrypt) (jsonwebtoken := Plain.jsonwebtoken) (credentials "alice" "pw") e st'
     = (st', json 200 (Token Sample.alice_token)).
Proof.
  intros bob e st'. split; [reflexivity|]. split; [reflexivity|].
  destruct (logins_survive_what_a_sign_up_read (bcrypt := Plain.bcrypt) (jsonwebtoken := Plain.jsonwebtoken)
              (credentials "alice" "pw") e Sample.alice_registered
              Sample.alice_token eq_refl) as (_ & _ & Hwhole).
  exact (Hwhole bob e).
Defined.

Lemma array_username :
  let req := post_json {[ "username" := VArr []; "password" := VStr "pw" ]} in
  let e := Plain.at_time 1000 9 in
  let st1 := fst (handleSignUp (bcrypt := Plain.bcrypt) req e Plain.empty_fs) in
  is_reference (prop "username" (body req)) = true
  /\ prop "password" (body req) = VStr "pw"
  /\ snd (handleSignUp (bcrypt := Plain.bcrypt) req e st1)
     = json 201 (Message "User registered successfully")
  /\ handleLogin (bcrypt := Plain.bcrypt) (jsonwebtoken := Plain.jsonwebtoken) req e st1
     = (st1, json 401 (Message "Invalid credentials")).
Proof.
  intros req e st1. split; [reflexivity|]. split; [reflexivity|].
  destruct (reference_usernames_never_match (bcrypt := Plain.bcrypt) (jsonwebtoken := Plain.jsonwebtoken) req e e Plain.empty_fs "pw"
              eq_refl eq_refl) as (_ & Hagain & Hlogin).
  split; [exact Hagain|exact Hlogin].
Defined.

Lemma login_with_no_password :
  let req := post_json {[ "username" := VStr "alice" ]} in
  let e := Plain.at_time 1000 9 in
  prop "username" (body req) = VStr "alice"
  /\ prop "password" (body req) = VUndef
  /\ handleLogin (bcrypt := Plain.bcrypt) (jsonwebtoken := Plain.jsonwebtoken) req e Plain.empty_fs
     = (Plain.empty_fs, json 401 (Message "Invalid credentials"))
  /\ handleLogin (bcrypt := Plain.bcrypt) (jsonwebtoken := Plain.jsonwebtoken) req e Sample.alice_registered
     = (Sample.alice_registered, Rejected).
Proof.
  intros req e. split; [reflexivity|]. split; [reflexivity|].
  assert (Hpw : forall plain, prop "password" (body req) <> VStr plain)
    by (intros plain; discriminate).
  split.
  - destruct (login_without_a_string_password (bcrypt := Plain.bcrypt) (jsonwebtoken := Plain.jsonwebtoken) "alice" req e Plain.empty_fs
                eq_refl Hpw) as [Habsent _].
    apply Habsent. intros user Hin. by apply elem_of_nil in Hin.
  - destruct (login_without_a_string_password (bcrypt := Plain.bcrypt) (jsonwebtoken := Plain.jsonwebtoken) "alice" req e
                Sample.alice_registered eq_refl Hpw) as [_ Hpresent].
    apply Hpresent. exists Sample.alice. split; [left|reflexivity].
Defined.

Lemma sign_up_with_a_number_as_password :
  let bob := post_json {[ "username" := VStr "bob"; "password" := VNum 5 ]} in
  let alice := post_json {[ "username" := VStr "alice"; "password" := VNum 5 ]} in
  let e := Plain.at_time 1000 9 in
  prop "password" (body bob) = VNum 5
  /\ handleSignUp (bcrypt := Plain.bcrypt) bob e Sample.alice_registered
     = (Sample.alice_registered, Rejected)
  /\ handleSignUp (bcrypt := Plain.bcrypt) alice e Sample.alice_registered
     = (Sample.alice_registered, json 400 (Message "User already exists")).
Proof.
  intros bob alice e. split; [reflexivity|]. split.
  - destruct (sign_up_without_a_string_password (bcrypt := Plain.bcrypt)
                bob e Sample.alice_registered) as (_ & _ & Hfree).
    + intros plain. discriminate.
    + apply Hfree. intros user [->|Hin]%elem_of_cons; [discriminate|].
      by apply elem_of_nil in Hin.
  - destruct (sign_up_without_a_string_password (bcrypt := Plain.bcrypt)
                alice e Sample.alice_registered) as (_ & Htaken & _).
    + intros plain. discriminate.
    + apply Htaken. exists Sample.alice. split; [left|reflexivity].
Defined.

Lemma alice_reads_her_own_hash :
  let req := with_bearer Sample.alice_token (post_json ∅) in
  bearer req = Some Sample.alice_token
  /\ serve (bcrypt := Plain.bcrypt) (jsonwebtoken := Plain.jsonwebtoken) Routes.accounts req (Plain.at_time 1000 9)
           (fst (handleSignUp (bcrypt := Plain.bcrypt) (credentials "alice" "pw")
                              (Plain.at_time 900 7) Plain.empty_fs))
     = (Sample.alice_registered,
        json 200 (Users [{| User.username := VStr "alice";
                            User.password := "10$7$pw" |}])).
Proof.
  intros req. split; [reflexivity|].
  apply (accounts_sends_the_stored_hashes (bcrypt := Plain.bcrypt) (jsonwebtoken := Plain.jsonwebtoken) "alice" "pw"
           (Plain.at_time 900 7) (Plain.at_time 1000 9) Plain.empty_fs req
           Sample.alice_token
           {| claim_username := VStr "alice"; iat := 1000; exp := Some 4600%nat |}).
  - intros user Hin. by apply elem_of_nil in Hin.
  - reflexivity.
  - discriminate.
  - reflexivity.
Defined.

Lemma alice_removes_a_post_of_bob :
  let req := with_bearer Sample.alice_token (post_json {[ "postId" := VNum 1 ]}) in
  let e := Plain.at_time 1000 9 in
  Post.username Sample.bob_1 = VStr "bob"
  /\ jwt_verify (jsonwebtoken := Plain.jsonwebtoken) Sample.alice_token SECRET_KEY 1000
     = inr {| claim_username := VStr "alice"; iat := 1000; exp := Some 4600%nat |}
  /\ readDatabase (posts_json (fst (serve (bcrypt := Plain.bcrypt) (jsonwebtoken := Plain.jsonwebtoken) Routes.remove_post req e
                                          Sample.three_posts)))
     = [Sample.carol_2; Sample.bob_3]
  /\ (Sample.bob_1 ∉ readDatabase
        (posts_json (fst (serve (bcrypt := Plain.bcrypt) (jsonwebtoken := Plain.jsonwebtoken) Routes.remove_post req e Sample.three_posts)))).
Proof.
  intros req e. split; [reflexivity|]. split; [reflexivity|].
  split; [reflexivity|].
  destruct (anyone_can_remove_any_post (bcrypt := Plain.bcrypt) (jsonwebtoken := Plain.jsonwebtoken) req e Sample.three_posts
              Sample.alice_token
              {| claim_username := VStr "alice"; iat := 1000; exp := Some 4600%nat |}
              Sample.bob_1 VUndef) as (_ & _ & Hgone);
    [reflexivity|discriminate|reflexivity|reflexivity|].
  exact Hgone.
Defined.

Lemma body_cannot_choose_the_owner :
  let req := with_bearer Sample.alice_token (post_json {[ "content" := VStr "hi" ]}) in
  let req' :=
    with_bearer Sample.alice_token
      (post_json {[ "content" := VStr "hi"; "username" := VStr "bob";
                    "id" := VNum 99 ]}) in
  let e := Plain.at_time 1000 9 in
  prop "username" (body req') = VStr "bob"
  /\ snd (serve (bcrypt := Plain.bcrypt) (jsonwebtoken := Plain.jsonwebtoken) Sample.create_post req' e Plain.empty_fs)
     = json 201 (OnePost {| Post.id := 1; Post.username := VStr "alice";
                            Post.content := VStr "hi" |}).
Proof.
  intros req req' e. split; [reflexivity|].
  destruct (owner_comes_from_the_token (bcrypt := Plain.bcrypt) (jsonwebtoken := Plain.jsonwebtoken) req req' e Plain.empty_fs
              Sample.alice_token
              {| claim_username := VStr "alice"; iat := 1000; exp := Some 4600%nat |})
    as [Hreq Hsame];
    [reflexivity|discriminate|reflexivity|reflexivity|reflexivity|].
  rewrite Hsame, Hreq. reflexivity.
Defined.

(** A [/removePost] with a token that is not one is answered 403 and
    the three posts stay. *)
Lemma refused_removal_writes_nothing :
  let req := with_bearer "garbage" (post_json {[ "postId" := VNum 1 ]}) in
  let e := Plain.at_time 1000 9 in
  guards Routes.remove_post <> []
  /\ verifyUser (jsonwebtoken := Plain.jsonwebtoken) req (now e)
     = inl (sendStatus 403)
  /\ serve (bcrypt := Plain.bcrypt) (jsonwebtoken := Plain.jsonwebtoken) Routes.remove_post req e Sample.three_posts
     = (Sample.three_posts, Responded (sendStatus 403)).
Proof.
  intros req e. split; [discriminate|]. split; [reflexivity|].
  destruct (each_file_has_its_writers (bcrypt := Plain.bcrypt) (jsonwebtoken := Plain.jsonwebtoken) Routes.remove_post req e
              Sample.three_posts) as (_ & _ & Hrefused & _).
  apply Hrefused; [discriminate|reflexivity].
Defined.

(** alice and bob register at the same time on an empty store: both are
    answered 201, only bob is stored, and alice cannot log in. *)
Lemma alice_is_lost_to_bob :
  let ea := Plain.at_time 1000 7 in
  let eb := Plain.at_time 1000 8 in
  let for_alice := {| read_users := []; new_username := VStr "alice";
                      plain_password := "pw" |} in
  let for_bob := {| read_users := []; new_username := VStr "bob";
                    plain_password := "pw" |} in
  let st2 :=
    fst (signUp_resume (bcrypt := Plain.bcrypt) for_bob eb
           (fst (signUp_resume (bcrypt := Plain.bcrypt) for_alice ea Plain.empty_fs))) in
  "alice" <> "bob"
  /\ signUp_begin (credentials "alice" "pw") Plain.empty_fs = inr for_alice
  /\ signUp_begin (credentials "bob" "pw") Plain.empty_fs = inr for_bob
  /\ readDatabase (users_json st2)
     = [{| User.username := VStr "bob"; User.password := "10$8$pw" |}]
  /\ handleLogin (bcrypt := Plain.bcrypt) (jsonwebtoken := Plain.jsonwebtoken) (credentials "alice" "pw") ea st2
     = (st2, json 401 (Message "Invalid credentials")).
Proof.
  intros ea eb for_alice for_bob st2.
  split; [discriminate|]. split; [reflexivity|]. split; [reflexivity|].
  split; [reflexivity|].
  destruct (overlapping_sign_ups_lose_a_record (bcrypt := Plain.bcrypt) (jsonwebtoken := Plain.jsonwebtoken)
              "alice" "bob" "pw" "pw" ea eb ea Plain.empty_fs)
    as (for_a & for_b & Ha & Hb & _ & _ & Hlogin & _).
  - intros user Hin. by apply elem_of_nil in Hin.
  - intros user Hin. by apply elem_of_nil in Hin.
  - discriminate.
  - injection Ha as <-. injection Hb as <-. exact Hlogin.
Defined.
